(** * Verification of [src/vizualization.py]

    The repository holds two plotting helpers, [scatterplot] and
    [choropleth].  Both walk a fixed grid of subplots with a nested [for]
    loop, a running counter [k] and a [break] in the inner loop, look up
    rows or columns of their input table by position, and hand them to
    matplotlib / geopandas.

    The embedding below keeps that shape.  Python statements become
    actions of a small state-and-exception monad over a world made of the
    input table, the matplotlib figure and the local variable [k].
      - The look-ups that the source writes itself ([df.loc[..]],
        [df.iloc[k]], [df.index[k]], [columns[k]], [gdf.columns[:-3]],
        [ax[i, j]]) raise what pandas / numpy raise.
      - The drawing calls are recorded in the figure in the order they
        are made.  Two of them can refuse their arguments.  [Axes.scatter]
        raises [ValueError] when x and y differ in size, which happens
        when the label "total_population" is repeated and [df.loc] returns
        several rows.  [GeoDataFrame.plot] classifies and colours inside
        geopandas, mapclassify and matplotlib, which are not part of this
        repository: what it answers for given arguments (a map drawn,
        nothing drawn, an exception) is a parameter of the model, written
        [lib] below.  The other drawing calls take strings and constants
        and do not fail.
      - Reading a table ([df.loc], [df.iloc], [df.index], [gdf.columns],
        the drawing calls) leaves it as it is; [gdf.to_crs] changes the
        caller's table only with [inplace=True], which the source does not
        pass.
      - An expression [obj.method(args)] evaluates [obj], then [args],
        then calls: [ax[i, j]] is indexed before the arguments of its
        method are looked up.
      - Strings are ASCII: [str.capitalize] and [str.replace] are modelled
        on characters below 128. *)

From Stdlib Require Import String Ascii ZArith List Bool Arith Lia.
From stdpp Require Import base list.
Import ListNotations.
Open Scope string_scope.
Open Scope list_scope.

(** ** Python strings *)

Module PyStr.

Definition is_lower (c : ascii) : bool :=
  ((97 <=? nat_of_ascii c) && (nat_of_ascii c <=? 122))%nat.

Definition is_upper (c : ascii) : bool :=
  ((65 <=? nat_of_ascii c) && (nat_of_ascii c <=? 90))%nat.

Definition upper (c : ascii) : ascii :=
  if is_lower c then ascii_of_nat (nat_of_ascii c - 32) else c.

Definition lower (c : ascii) : ascii :=
  if is_upper c then ascii_of_nat (nat_of_ascii c + 32) else c.

Fixpoint map (f : ascii -> ascii) (s : string) : string :=
  match s with
  | EmptyString => EmptyString
  | String c r => String (f c) (map f r)
  end.

(** [str.capitalize()] on an ASCII string: first character upper-cased,
    the rest lower-cased.  Python also changes case beyond ASCII, which
    this function does not; what is proved of it below is stated for
    strings that satisfy [is_ascii]. *)
Definition capitalize (s : string) : string :=
  match s with
  | EmptyString => EmptyString
  | String c r => String (upper c) (map lower r)
  end.

(** [str.replace(old, new)] for a non-empty [old]: scan from the left,
    [skip] counts the characters of a match still to be dropped. *)
Fixpoint replace_from (old new : string) (skip : nat) (s : string) : string :=
  match s with
  | EmptyString => EmptyString
  | String c r =>
      match skip with
      | S n => replace_from old new n r
      | O =>
          if String.prefix old s
          then new ++ replace_from old new (String.length old - 1) r
          else String c (replace_from old new 0 r)
      end
  end.

(** With an empty [old], Python puts [new] before every character and at
    the end. *)
Fixpoint interleave (new s : string) : string :=
  match s with
  | EmptyString => new
  | String c r => new ++ String c (interleave new r)
  end.

Definition replace (old new s : string) : string :=
  match old with
  | EmptyString => interleave new s
  | _ => replace_from old new 0 s
  end.

Definition is_ascii (s : string) : bool :=
  forallb (fun c => (nat_of_ascii c <? 128)%nat) (list_ascii_of_string s).

End PyStr.

(** ** Exceptions and the monad of a call *)

Inductive exn : Type :=
| KeyError                   (* label not in the index *)
| IndexError                 (* position out of range *)
| ValueError                 (* an argument a library call refuses *)
| OtherError (name : string).  (* any other exception of a library *)

Inductive outcome (A : Type) : Type :=
| Ok (a : A)
| Raise (e : exn).
Arguments Ok {A} a.
Arguments Raise {A} e.

(** ** Tables *)

(** A pandas [Series]: a row of a table with its label. *)
Record Series : Type := mkSeries { s_name : string; s_values : list Z }.

(** A pandas [DataFrame] as [scatterplot] uses it: rows in order, each with
    its index label; the column labels are the geographic units. *)
Record DataFrame : Type := mkDataFrame
  { df_columns : list string;
    df_rows : list (string * list Z) }.

(** What [df.loc[label]] evaluates to: a [Series] when the label is unique
    in the index, a sub-frame of the matching rows when it is repeated. *)
Inductive LocResult : Type :=
| LocSeries (s : Series)
| LocFrame (rows : list (string * list Z)).

Definition df_index (df : DataFrame) : list string := List.map fst (df_rows df).

Definition df_loc (df : DataFrame) (label : string) : outcome LocResult :=
  match List.filter (fun r => String.eqb (fst r) label) (df_rows df) with
  | [] => Raise KeyError
  | [(n, v)] => Ok (LocSeries (mkSeries n v))
  | rs => Ok (LocFrame rs)
  end.

Definition df_iloc (df : DataFrame) (k : nat) : outcome Series :=
  match df_rows df !! k with
  | Some (n, v) => Ok (mkSeries n v)
  | None => Raise IndexError
  end.

(** [idx[k]] on a pandas [Index] of labels. *)
Definition index_at (idx : list string) (k : nat) : outcome string :=
  match idx !! k with
  | Some s => Ok s
  | None => Raise IndexError
  end.

(** [idx[:-n]]: everything but the last [n] labels (nothing when there are
    at most [n]). *)
Definition drop_last (n : nat) (idx : list string) : list string :=
  firstn (length idx - n) idx.

(** A geopandas [GeoDataFrame]: a coordinate reference system (its EPSG
    code) and named columns in order. *)
Record GeoDataFrame : Type := mkGeoDataFrame
  { gdf_crs : Z;
    gdf_data : list (string * list Z) }.

Definition gdf_columns (gdf : GeoDataFrame) : list string :=
  List.map fst (gdf_data gdf).

(** [gdf.to_crs(epsg=e)] without [inplace]: a new frame in the target
    reference system; the receiver is left as it is. *)
Definition to_crs (epsg : Z) (gdf : GeoDataFrame) : GeoDataFrame :=
  mkGeoDataFrame epsg (gdf_data gdf).

(** ** Figures *)

(** One call of [GeoDataFrame.plot] on an axes: the frame it is called on
    and its arguments. *)
Record MapLayer : Type := mkMapLayer
  { m_frame : GeoDataFrame;
    m_column : string;
    m_legend : bool;
    m_scheme : string;
    m_cmap : string }.

(** What [GeoDataFrame.plot] does with a call: it draws the map, or returns
    having drawn nothing (geopandas does so, with a warning, on a frame
    without rows), or raises. *)
Inductive plot_outcome : Type :=
| Drawn
| NothingDrawn
| Fails (e : exn).

(** The plotting library, as far as [choropleth] depends on it. *)
Definition PlotLibrary : Type := MapLayer -> plot_outcome.

Definition plot_error (o : plot_outcome) : option exn :=
  match o with
  | Fails e => Some e
  | _ => None
  end.

Definition was_drawn (o : plot_outcome) : bool :=
  match o with
  | Drawn => true
  | _ => false
  end.

Record Axes : Type := mkAxes
  { scatters : list (LocResult * Series);
    layers : list MapLayer;
    title : string;
    xlabel : string;
    ylabel : string;
    xscale : string;
    yscale : string;
    axis_on : bool;
    in_figure : bool }.

Definition new_axes : Axes :=
  mkAxes [] [] "" "" "" "linear" "linear" true true.

Record Figure : Type := mkFigure
  { figsize : Z * Z;
    sharex : bool;
    grid : list (list Axes);
    tight : bool;
    shown : bool }.

Definition no_figure : Figure := mkFigure (0, 0)%Z false [] false false.

Definition set_grid (g : list (list Axes)) (f : Figure) : Figure :=
  mkFigure (figsize f) (sharex f) g (tight f) (shown f).

Definition panel (f : Figure) (i j : nat) : option Axes :=
  match grid f !! i with
  | Some row => row !! j
  | None => None
  end.

Definition add_scatter (x : LocResult) (y : Series) (a : Axes) : Axes :=
  mkAxes (scatters a ++ [(x, y)]) (layers a) (title a) (xlabel a) (ylabel a)
         (xscale a) (yscale a) (axis_on a) (in_figure a).
Definition add_layer (m : MapLayer) (a : Axes) : Axes :=
  mkAxes (scatters a) (layers a ++ [m]) (title a) (xlabel a) (ylabel a)
         (xscale a) (yscale a) (axis_on a) (in_figure a).
Definition with_title (s : string) (a : Axes) : Axes :=
  mkAxes (scatters a) (layers a) s (xlabel a) (ylabel a)
         (xscale a) (yscale a) (axis_on a) (in_figure a).
Definition with_xlabel (s : string) (a : Axes) : Axes :=
  mkAxes (scatters a) (layers a) (title a) s (ylabel a)
         (xscale a) (yscale a) (axis_on a) (in_figure a).
Definition with_ylabel (s : string) (a : Axes) : Axes :=
  mkAxes (scatters a) (layers a) (title a) (xlabel a) s
         (xscale a) (yscale a) (axis_on a) (in_figure a).
Definition with_xscale (s : string) (a : Axes) : Axes :=
  mkAxes (scatters a) (layers a) (title a) (xlabel a) (ylabel a)
         s (yscale a) (axis_on a) (in_figure a).
Definition with_yscale (s : string) (a : Axes) : Axes :=
  mkAxes (scatters a) (layers a) (title a) (xlabel a) (ylabel a)
         (xscale a) s (axis_on a) (in_figure a).
Definition with_axis_off (a : Axes) : Axes :=
  mkAxes (scatters a) (layers a) (title a) (xlabel a) (ylabel a)
         (xscale a) (yscale a) false (in_figure a).
Definition removed (a : Axes) : Axes :=
  mkAxes (scatters a) (layers a) (title a) (xlabel a) (ylabel a)
         (xscale a) (yscale a) (axis_on a) false.

(** [Axes.scatter(x, y)] ravels both arguments and compares their sizes.
    A row of a frame against a row of the same frame always matches; a
    sub-frame of several rows has the cells of all its rows. *)
Definition scatter_sizes_match (x : LocResult) (y : Series) : bool :=
  match x with
  | LocSeries _ => true
  | LocFrame rows =>
      Nat.eqb (length (concat (List.map snd rows))) (length (s_values y))
  end.

(** ** The world of one call *)

Record World (T : Type) : Type := mkWorld
  { input : T;        (* the table the caller passed in *)
    fig : Figure;     (* the figure under construction *)
    var_k : nat }.    (* the local variable [k] *)
Arguments mkWorld {T} _ _ _.
Arguments input {T} _.
Arguments fig {T} _.
Arguments var_k {T} _.

Definition M (T A : Type) : Type := World T -> outcome A * World T.

Definition ret {T A} (a : A) : M T A := fun w => (Ok a, w).

Definition bind {T A B} (m : M T A) (k : A -> M T B) : M T B :=
  fun w =>
    match m w with
    | (Ok a, w') => k a w'
    | (Raise e, w') => (Raise e, w')
    end.

Declare Scope py_scope.
Delimit Scope py_scope with py.
Notation "x <- m ;; k" := (bind m (fun x => k))
  (at level 100, m at next level, right associativity) : py_scope.
Notation "m ;; k" := (bind m (fun _ => k))
  (at level 100, right associativity) : py_scope.
Open Scope py_scope.

(** Lift the value of a Python expression that may raise. *)
Definition eval {T A} (o : outcome A) : M T A := fun w => (o, w).

Definition get_input {T} : M T T := fun w => (Ok (input w), w).
Definition set_input {T} (t : T) : M T unit :=
  fun w => (Ok tt, mkWorld t (fig w) (var_k w)).
Definition get_k {T} : M T nat := fun w => (Ok (var_k w), w).
Definition set_k {T} (n : nat) : M T unit :=
  fun w => (Ok tt, mkWorld (input w) (fig w) n).
Definition modify_fig {T} (f : Figure -> Figure) : M T unit :=
  fun w => (Ok tt, mkWorld (input w) (f (fig w)) (var_k w)).

(** [ax[i, j]]: indexing the array of axes raises when [(i, j)] is outside
    the grid. *)
Definition get_axes {T} (i j : nat) : M T Axes :=
  fun w =>
    match panel (fig w) i j with
    | Some a => (Ok a, w)
    | None => (Raise IndexError, w)
    end.

(** [ax[i, j].method(..)] once the arguments are there: the method updates
    the axes at [(i, j)]. *)
Definition on_axes {T} (i j : nat) (f : Axes -> Axes) : M T unit :=
  fun w =>
    match panel (fig w) i j with
    | Some _ =>
        (Ok tt,
         mkWorld (input w)
                 (set_grid (alter (alter f j) i (grid (fig w))) (fig w))
                 (var_k w))
    | None => (Raise IndexError, w)
    end.

(** [ax[i, j].scatter(x, y)] once [ax[i, j]], [x] and [y] are there. *)
Definition ax_scatter {T} (i j : nat) (x : LocResult) (y : Series) : M T unit :=
  if scatter_sizes_match x y
  then on_axes i j (add_scatter x y)
  else eval (Raise ValueError).

(** [frame.plot(column=.., ax=ax[i, j], legend=.., scheme=.., cmap=..)] once
    its arguments are there: the library decides. *)
Definition gdf_plot {T} (lib : PlotLibrary) (i j : nat) (l : MapLayer)
  : M T unit :=
  match lib l with
  | Drawn => on_axes i j (add_layer l)
  | NothingDrawn => ret tt
  | Fails e => eval (Raise e)
  end.

(** [gdf.to_crs(epsg=e)]: the caller's table is read and a new frame is
    returned. *)
Definition to_crs_copy (epsg : Z) : M GeoDataFrame GeoDataFrame :=
  gdf <- get_input ;;
  ret (to_crs epsg gdf).

(** [gdf.to_crs(epsg=e, inplace=True)]: the caller's table itself is
    re-projected and nothing is returned. *)
Definition to_crs_inplace (epsg : Z) : M GeoDataFrame unit :=
  gdf <- get_input ;;
  set_input (to_crs epsg gdf).

(** [fig, ax = plt.subplots(nrows, ncols, figsize, sharex)] *)
Definition plt_subplots {T} (nrows ncols : nat) (size : Z * Z) (share : bool)
  : M T unit :=
  modify_fig (fun _ =>
    mkFigure size share (repeat (repeat new_axes ncols) nrows) false false).

Definition tight_layout {T} : M T unit :=
  modify_fig (fun f => mkFigure (figsize f) (sharex f) (grid f) true (shown f)).

Definition plt_show {T} : M T unit :=
  modify_fig (fun f => mkFigure (figsize f) (sharex f) (grid f) (tight f) true).

(** ** Loops *)

Inductive ctl : Type := Next | Break.

(** [for x in l: body], where [body] says whether it ended in [break]. *)
Fixpoint for_in {T} (l : list nat) (body : nat -> M T ctl) : M T unit :=
  match l with
  | [] => ret tt
  | x :: l' =>
      c <- body x ;;
      match c with
      | Break => ret tt
      | Next => for_in l' body
      end
  end.

Definition range (n : nat) : list nat := seq 0 n.

Definition when {T} (b : bool) (m : M T unit) : M T unit :=
  if b then m else ret tt.

(** ** [scatterplot] *)

(** The body of the inner loop, for the panel at row [i], column [j]. *)
Definition scatter_panel (logx logy : bool) (i j : nat) : M DataFrame ctl :=
  (* ax[i, j].scatter(df.loc["total_population"], df.iloc[k]) *)
  df <- get_input ;;
  get_axes i j ;;
  x <- eval (df_loc df "total_population") ;;
  k <- get_k ;;
  y <- eval (df_iloc df k) ;;
  ax_scatter i j x y ;;
  (* ax[i, j].set_title(df.index[k]) *)
  get_axes i j ;;
  k <- get_k ;;
  name <- eval (index_at (df_index df) k) ;;
  on_axes i j (with_title name) ;;
  (* ax[i, j].set_xlabel('total_population') *)
  on_axes i j (with_xlabel "total_population") ;;
  (* ax[i, j].set_title(f'{df.index[k].capitalize().replace("_", " ")}') *)
  get_axes i j ;;
  k <- get_k ;;
  name <- eval (index_at (df_index df) k) ;;
  on_axes i j (with_title (PyStr.replace "_" " " (PyStr.capitalize name))) ;;
  (* ax[i, j].set_ylabel(f'Number of amenity in a borough') *)
  on_axes i j (with_ylabel "Number of amenity in a borough") ;;
  (* ax[i, j].set_xlabel('Total population per borough') *)
  on_axes i j (with_xlabel "Total population per borough") ;;
  (* if logx: ax[i, j].set_xscale('log') *)
  when logx (on_axes i j (with_xscale "log")) ;;
  (* if logy: ax[i, j].set_yscale('log') *)
  when logy (on_axes i j (with_yscale "log")) ;;
  (* k += 1 *)
  k <- get_k ;;
  set_k (k + 1) ;;
  (* if k == 10: break *)
  k <- get_k ;;
  if Nat.eqb k 10 then ret Break else ret Next.

Definition scatterplot (figsize : Z * Z) (logx logy : bool) : M DataFrame unit :=
  let nrows := 3 in
  let ncols := 4 in
  plt_subplots nrows ncols figsize true ;;
  set_k 0 ;;
  df <- get_input ;;
  let index := df_index df in   (* index = df.index.tolist(), not used *)
  for_in (range nrows) (fun i =>
    for_in (range ncols) (fun j => scatter_panel logx logy i j) ;;
    ret Next) ;;
  (* fig.delaxes(ax[2, 2]); fig.delaxes(ax[2, 3]) *)
  on_axes 2 2 removed ;;
  on_axes 2 3 removed ;;
  tight_layout ;;
  plt_show.

(** ** [choropleth] *)

Definition choropleth_panel (lib : PlotLibrary) (columns : list string)
    (cmap : string) (i j : nat) : M GeoDataFrame ctl :=
  (* gdf.to_crs(epsg=3857).plot(column=columns[k], ax=ax[i, j], legend=True,
                                scheme='fisher_jenks', cmap=cmap) *)
  projected <- to_crs_copy 3857 ;;
  k <- get_k ;;
  column <- eval (index_at columns k) ;;
  get_axes i j ;;
  gdf_plot lib i j (mkMapLayer projected column true "fisher_jenks" cmap) ;;
  (* ax[i, j].set_title(f'{columns[k].capitalize().replace("_", " ")}') *)
  get_axes i j ;;
  k <- get_k ;;
  name <- eval (index_at columns k) ;;
  on_axes i j (with_title (PyStr.replace "_" " " (PyStr.capitalize name))) ;;
  (* ax[i, j].axis('off') *)
  on_axes i j with_axis_off ;;
  (* k += 1 *)
  k <- get_k ;;
  set_k (k + 1) ;;
  (* if k == 10: break *)
  k <- get_k ;;
  if Nat.eqb k 10 then ret Break else ret Next.

Definition choropleth (lib : PlotLibrary) (figsize : Z * Z) (cmap : string)
  : M GeoDataFrame unit :=
  let nrows := 4 in
  let ncols := 3 in
  plt_subplots nrows ncols figsize true ;;
  set_k 0 ;;
  gdf <- get_input ;;
  let columns := drop_last 3 (gdf_columns gdf) in
  for_in (range nrows) (fun i =>
    for_in (range ncols) (fun j => choropleth_panel lib columns cmap i j) ;;
    ret Next) ;;
  (* fig.delaxes(ax[3, 1]); fig.delaxes(ax[3, 2]) *)
  on_axes 3 1 removed ;;
  on_axes 3 2 removed ;;
  tight_layout.

(** ** Running a call *)

Definition fresh {T} (table : T) : World T := mkWorld table no_figure 0.

Definition run_scatterplot (df : DataFrame) (figsize : Z * Z)
    (logx logy : bool) : outcome unit * World DataFrame :=
  scatterplot figsize logx logy (fresh df).

Definition run_choropleth (lib : PlotLibrary) (gdf : GeoDataFrame)
    (figsize : Z * Z) (cmap : string) : outcome unit * World GeoDataFrame :=
  choropleth lib figsize cmap (fresh gdf).

(** ** Observations on a figure *)

Definition all_axes (f : Figure) : list Axes := concat (grid f).

(** A populated panel is one still in the figure with data drawn on it. *)
Definition is_populated (a : Axes) : bool :=
  in_figure a && negb (Nat.eqb (length (scatters a) + length (layers a)) 0).

Definition is_deleted (a : Axes) : bool := negb (in_figure a).

Definition count_axes (p : Axes -> bool) (f : Figure) : nat :=
  length (List.filter p (all_axes f)).

(** ** What the specification says, for the claims that differ from the code *)

Definition population_label : string := "total_population".

(** Does a panel plot the row with this label on its y axis? *)
Definition plots_on_y (label : string) (a : Axes) : bool :=
  existsb (fun xy => String.eqb (s_name (snd xy)) label) (scatters a).

Definition population_plotted (f : Figure) : bool :=
  existsb (plots_on_y population_label) (all_axes f).

(** The specification's reading of [scatterplot]: whatever the table, the
    population row is never drawn on a y axis. *)
Definition skips_population_row (df : DataFrame) : Prop :=
  forall size logx logy,
    population_plotted (fig (snd (run_scatterplot df size logx logy))) = false.

(** The specification's failure condition: fewer than 11 rows. *)
Definition fails_below_eleven_rows (df : DataFrame) : Prop :=
  length (df_rows df) < 11 ->
  forall size logx logy,
    fst (run_scatterplot df size logx logy) = Raise IndexError.

(** The specification's reading of [choropleth] on 13 columns: it returns,
    whatever the table holds and whatever the colour map. *)
Definition thirteen_columns_always_plot (lib : PlotLibrary)
    (gdf : GeoDataFrame) : Prop :=
  length (gdf_data gdf) = 13 ->
  forall size cmap, fst (run_choropleth lib gdf size cmap) = Ok tt.

(** The specification's reading of [choropleth] below 13 columns: the
    error is the out-of-range one. *)
Definition few_columns_fail_out_of_range (lib : PlotLibrary)
    (gdf : GeoDataFrame) : Prop :=
  length (gdf_data gdf) < 13 ->
  forall size cmap, fst (run_choropleth lib gdf size cmap) = Raise IndexError.

Definition space_for_underscore (c : ascii) : ascii :=
  if Ascii.eqb c "_" then " "%char else c.

(** The title as the specification words it: underscores become spaces,
    the first letter is capitalized, nothing else changes. *)
Definition spec_title (name : string) : string :=
  PyStr.map space_for_underscore
    match name with
    | EmptyString => EmptyString
    | String c r => String (PyStr.upper c) r
    end.

Definition titles_as_specified (df : DataFrame) : Prop :=
  forall size logx logy k n v a,
    df_rows df !! k = Some (n, v) ->
    panel (fig (snd (run_scatterplot df size logx logy))) (k / 4) (k mod 4)
      = Some a ->
    is_populated a = true ->
    title a = spec_title n.

(** The title as the code builds it, character by character: position 0
    upper-cased, every later position lower-cased, then underscores turned
    into spaces. *)
Definition title_char (p : nat) (c : ascii) : ascii :=
  space_for_underscore (if Nat.eqb p 0 then PyStr.upper c else PyStr.lower c).

Definition is_title_of (name t : string) : Prop :=
  String.length t = String.length name /\
  forall p c, String.get p name = Some c ->
              String.get p t = Some (title_char p c).

(** Erasing the axis scales of a panel, to compare everything else. *)
Definition erase_scales (a : Axes) : Axes :=
  with_yscale "linear" (with_xscale "linear" a).

Definition count_label (label : string) (df : DataFrame) : nat :=
  length (List.filter (fun r => String.eqb (fst r) label) (df_rows df)).

(** ** Sample tables *)

Definition boroughs : list string := ["Camden"; "Hackney"; "Islington"].

Definition amenity_rows : list (string * list Z) :=
  [ ("bank", [12; 7; 9]%Z);
    ("fast_food", [40; 55; 38]%Z);
    ("cafe", [61; 48; 52]%Z);
    ("bicycle_parking", [130; 210; 180]%Z);
    ("pub", [33; 29; 41]%Z);
    ("restaurant", [90; 75; 88]%Z);
    ("pharmacy", [14; 11; 13]%Z);
    ("post_box", [70; 64; 59]%Z);
    ("atm", [21; 18; 16]%Z);
    ("bench", [150; 170; 120]%Z) ].

Definition population_row : string * list Z :=
  ("total_population", [270000; 281000; 239000]%Z).

(** Ten amenities, then the population: the layout the caller is meant to
    provide. *)
Definition amenities : DataFrame :=
  mkDataFrame boroughs (amenity_rows ++ [population_row]).

(** The same rows with the population first. *)
Definition population_first : DataFrame :=
  mkDataFrame boroughs (population_row :: amenity_rows).

(** Nine amenities and the population: ten rows in all. *)
Definition ten_rows : DataFrame :=
  mkDataFrame boroughs (firstn 9 amenity_rows ++ [population_row]).

(** Four amenities and the population. *)
Definition five_rows : DataFrame :=
  mkDataFrame boroughs (firstn 4 amenity_rows ++ [population_row]).

(** A table whose first label has capitals after its first letter. *)
Definition mixed_case : DataFrame :=
  mkDataFrame boroughs
    (("ATM_cash_Point", [21; 18; 16]%Z) :: List.tl amenity_rows
       ++ [population_row]).

(** Eleven amenity rows, none of them the population. *)
Definition no_population : DataFrame :=
  mkDataFrame boroughs (amenity_rows ++ [("library", [5; 6; 4]%Z)]).

(** Ten amenities and two rows that both carry the population label (two
    census years, say). *)
Definition population_twice : DataFrame :=
  mkDataFrame boroughs
    (amenity_rows
       ++ [population_row; ("total_population", [254000; 262000; 226000]%Z)]).

Definition trailing_columns : list (string * list Z) :=
  [ ("borough_code", [1; 2; 3]%Z);
    ("borough_name", [10; 20; 30]%Z);
    ("geometry", [100; 200; 300]%Z) ].

(** Ten metric columns followed by the three non-metric ones, in WGS 84. *)
Definition borough_map : GeoDataFrame :=
  mkGeoDataFrame 4326 (amenity_rows ++ trailing_columns).

(** Only four metric columns before the trailing three. *)
Definition small_map : GeoDataFrame :=
  mkGeoDataFrame 4326 (firstn 4 amenity_rows ++ trailing_columns).

(** Six wards, with at least five distinct values in every column. *)
Definition ward_columns : list (string * list Z) :=
  [ ("bank", [12; 7; 9; 15; 3; 20]%Z);
    ("fast_food", [40; 55; 38; 61; 12; 47]%Z);
    ("cafe", [61; 48; 52; 70; 19; 33]%Z);
    ("bicycle_parking", [130; 210; 180; 95; 60; 240]%Z);
    ("pub", [33; 29; 41; 18; 7; 25]%Z);
    ("restaurant", [90; 75; 88; 102; 31; 64]%Z);
    ("pharmacy", [14; 11; 13; 9; 4; 16]%Z);
    ("post_box", [70; 64; 59; 81; 22; 45]%Z);
    ("atm", [21; 18; 16; 30; 5; 12]%Z);
    ("bench", [150; 170; 120; 200; 80; 95]%Z) ].

Definition ward_trailing_columns : list (string * list Z) :=
  [ ("ward_code", [1; 2; 3; 4; 5; 6]%Z);
    ("ward_name", [10; 20; 30; 40; 50; 60]%Z);
    ("geometry", [100; 200; 300; 400; 500; 600]%Z) ].

(** Ten metric columns followed by the three non-metric ones, six rows. *)
Definition ward_map : GeoDataFrame :=
  mkGeoDataFrame 4326 (ward_columns ++ ward_trailing_columns).

(** Only four metric columns before the trailing three, six rows. *)
Definition small_ward_map : GeoDataFrame :=
  mkGeoDataFrame 4326 (firstn 4 ward_columns ++ ward_trailing_columns).

(** ** A plotting library for the examples *)

(** [df.empty]: no columns or no rows. *)
Definition gdf_is_empty (gdf : GeoDataFrame) : bool :=
  match gdf_data gdf with
  | [] => true
  | (_, v) :: _ => Nat.eqb (length v) 0
  end.

Definition column_values (gdf : GeoDataFrame) (column : string) : list Z :=
  match List.find (fun c => String.eqb (fst c) column) (gdf_data gdf) with
  | Some (_, v) => v
  | None => []
  end.

Definition distinct_count (v : list Z) : nat := length (nodup Z.eq_dec v).

(** The behaviour of [GeoDataFrame.plot] that the examples rely on, for a
    given set of registered colour maps: nothing is drawn on a frame
    without rows; the "fisher_jenks" scheme makes 5 classes and raises
    [ValueError] on a column with fewer than 5 distinct values; an unknown
    colour map raises [ValueError]. *)
Definition reference_plot (colormaps : list string) : PlotLibrary :=
  fun l =>
    if gdf_is_empty (m_frame l) then NothingDrawn
    else if String.eqb (m_scheme l) "fisher_jenks"
            && (distinct_count (column_values (m_frame l) (m_column l)) <? 5)%nat
    then Fails ValueError
    else if existsb (String.eqb (m_cmap l)) colormaps then Drawn
    else Fails ValueError.

Definition sample_colormaps : list string :=
  ["viridis"; "plasma"; "inferno"; "magma"; "cividis"].

Definition sample_library : PlotLibrary := reference_plot sample_colormaps.

(** ** Worlds reached while stepping through a call *)

(** The world after [ax[i, j].method(..)] went through. *)
Definition upd {T} (i j : nat) (f : Axes -> Axes) (w : World T) : World T :=
  mkWorld (input w) (set_grid (alter (alter f j) i (grid (fig w))) (fig w))
          (var_k w).

Definition next_k {T} (w : World T) : World T :=
  mkWorld (input w) (fig w) (var_k w + 1).

Definition apply_if (b : bool) (f : Axes -> Axes) : Axes -> Axes :=
  if b then f else fun a => a.

(** The world after one pass through the body of [scatterplot]'s loop. *)
Definition after_scatter (logx logy : bool) (i j : nat) (x : LocResult)
    (y : Series) (w : World DataFrame) : World DataFrame :=
  next_k
   (upd i j (apply_if logy (with_yscale "log"))
   (upd i j (apply_if logx (with_xscale "log"))
   (upd i j (with_xlabel "Total population per borough")
   (upd i j (with_ylabel "Number of amenity in a borough")
   (upd i j (with_title (PyStr.replace "_" " " (PyStr.capitalize (s_name y))))
   (upd i j (with_xlabel "total_population")
   (upd i j (with_title (s_name y))
   (upd i j (add_scatter x y) w)))))))).

Definition add_layers (ls : list MapLayer) (a : Axes) : Axes :=
  mkAxes (scatters a) (layers a ++ ls) (title a) (xlabel a) (ylabel a)
         (xscale a) (yscale a) (axis_on a) (in_figure a).

(** What a call of [GeoDataFrame.plot] leaves on its axes when it returns. *)
Definition plot_effect (o : plot_outcome) (l : MapLayer) : Axes -> Axes :=
  add_layers (if was_drawn o then [l] else []).

(** The call of [GeoDataFrame.plot] that [choropleth] makes for a column. *)
Definition map_layer (gdf : GeoDataFrame) (cmap column : string) : MapLayer :=
  mkMapLayer (to_crs 3857 gdf) column true "fisher_jenks" cmap.

(** The world after one pass through the body of [choropleth]'s loop. *)
Definition after_map (lib : PlotLibrary) (cmap : string) (i j : nat)
    (gdf : GeoDataFrame) (column : string) (w : World GeoDataFrame)
  : World GeoDataFrame :=
  next_k
   (upd i j with_axis_off
   (upd i j (with_title (PyStr.replace "_" " " (PyStr.capitalize column)))
   (upd i j (plot_effect (lib (map_layer gdf cmap column))
                         (map_layer gdf cmap column)) w))).

(** ** Closed form of a run *)

Definition title_of (name : string) : string :=
  PyStr.replace "_" " " (PyStr.capitalize name).

Definition scale_of (log : bool) : string := if log then "log" else "linear".

(** A panel of [scatterplot] once its pass through the loop body is over. *)
Definition scatter_drawn (logx logy : bool) (x : LocResult)
    (name : string) (vals : list Z) : Axes :=
  mkAxes [(x, mkSeries name vals)] [] (title_of name)
         "Total population per borough" "Number of amenity in a borough"
         (scale_of logx) (scale_of logy) true true.

Definition scatter_cell (df : DataFrame) (logx logy : bool) (x : LocResult)
    (k : nat) : Axes :=
  match df_rows df !! k with
  | Some (n, v) => scatter_drawn logx logy x n v
  | None => new_axes
  end.

(** A grid whose first [m] panels, in row-major order, are [cell 0],
    [cell 1], ... and whose other panels are untouched. *)
Definition grid_of (nrows ncols : nat) (cell : nat -> Axes) (m : nat)
  : list (list Axes) :=
  List.map (fun i =>
    List.map (fun j => let k := (i * ncols + j)%nat in
                       if (k <? m)%nat then cell k else new_axes)
             (seq 0 ncols))
    (seq 0 nrows).

Definition remove_at (i j : nat) (g : list (list Axes)) : list (list Axes) :=
  alter (alter removed j) i g.

(** Position of the first [false]. *)
Fixpoint first_false (bs : list bool) : option nat :=
  match bs with
  | [] => None
  | true :: r => option_map S (first_false r)
  | false :: _ => Some 0
  end.

(** Position and exception of the first call that fails. *)
Fixpoint first_failure (os : list plot_outcome) : option (nat * exn) :=
  match os with
  | [] => None
  | o :: r =>
      match plot_error o with
      | Some e => Some (0, e)
      | None => option_map (fun p => (S (fst p), snd p)) (first_failure r)
      end
  end.

(** For each of the first ten rows, does [scatter] accept it against [x]? *)
Definition scatter_tries (df : DataFrame) (x : LocResult) : list bool :=
  List.map (fun r => scatter_sizes_match x (mkSeries (fst r) (snd r)))
           (firstn 10 (df_rows df)).

Definition scatter_result_of (xo : outcome LocResult) (df : DataFrame)
    (size : Z * Z) (logx logy : bool) : outcome unit * World DataFrame :=
  match xo with
  | Raise e =>
      (Raise e,
       mkWorld df (mkFigure size true (grid_of 3 4 (fun _ => new_axes) 0)
                            false false) 0)
  | Ok x =>
      let n := length (df_rows df) in
      let g := grid_of 3 4 (scatter_cell df logx logy x) in
      match first_false (scatter_tries df x) with
      | Some k =>
          (Raise ValueError,
           mkWorld df (mkFigure size true (g k) false false) k)
      | None =>
          if (n <? 10)%nat
          then (Raise IndexError,
                mkWorld df (mkFigure size true (g n) false false) n)
          else (Ok tt,
                mkWorld df (mkFigure size true
                                     (remove_at 2 3 (remove_at 2 2 (g 10)))
                                     true true) 10)
      end
  end.

Definition scatter_result (df : DataFrame) (size : Z * Z) (logx logy : bool)
  : outcome unit * World DataFrame :=
  scatter_result_of (df_loc df "total_population") df size logx logy.

(** A panel of [choropleth] once its pass through the loop body is over. *)
Definition map_drawn (lib : PlotLibrary) (gdf : GeoDataFrame) (cmap : string)
    (column : string) : Axes :=
  mkAxes [] (if was_drawn (lib (map_layer gdf cmap column))
             then [map_layer gdf cmap column] else [])
         (title_of column) "" "" "linear" "linear" false true.

Definition map_cell (lib : PlotLibrary) (gdf : GeoDataFrame) (cmap : string)
    (columns : list string) (k : nat) : Axes :=
  match columns !! k with
  | Some c => map_drawn lib gdf cmap c
  | None => new_axes
  end.

(** For each of the first ten metric columns, what the library answers. *)
Definition plot_tries (lib : PlotLibrary) (gdf : GeoDataFrame) (cmap : string)
  : list plot_outcome :=
  List.map (fun c => lib (map_layer gdf cmap c))
           (firstn 10 (drop_last 3 (gdf_columns gdf))).

Definition choropleth_result (lib : PlotLibrary) (gdf : GeoDataFrame)
    (size : Z * Z) (cmap : string) : outcome unit * World GeoDataFrame :=
  let columns := drop_last 3 (gdf_columns gdf) in
  let n := length columns in
  let g := grid_of 4 3 (map_cell lib gdf cmap columns) in
  match first_failure (plot_tries lib gdf cmap) with
  | Some (k, e) =>
      (Raise e, mkWorld gdf (mkFigure size true (g k) false false) k)
  | None =>
      if (n <? 10)%nat
      then (Raise IndexError,
            mkWorld gdf (mkFigure size true (g n) false false) n)
      else (Ok tt,
            mkWorld gdf (mkFigure size true
                                  (remove_at 3 2 (remove_at 3 1 (g 10)))
                                  true false) 10)
  end.

(** An action that leaves the caller's table alone, whether it returns or
    raises. *)
Definition keeps_input {T A} (m : M T A) : Prop :=
  forall w, input (snd (m w)) = input w.

(** ** Further observations *)

Definition row_series (r : string * list Z) : Series :=
  mkSeries (fst r) (snd r).

(** The series drawn on the y axes, in panel order (row-major). *)
Definition plotted_rows (f : Figure) : list Series :=
  List.map snd (concat (List.map scatters (all_axes f))).

(** The columns drawn as maps, in panel order (row-major). *)
Definition plotted_columns (f : Figure) : list string :=
  List.map m_column (concat (List.map layers (all_axes f))).

(** The sample table with two more amenity rows after the population. *)
Definition amenities_longer : DataFrame :=
  mkDataFrame boroughs
    (df_rows amenities
       ++ [("library", [5; 6; 4]%Z); ("school", [44; 51; 39]%Z)]).

(** * Proofs *)

(** ** Strings *)

Example capitalize_lowers_the_rest :
  PyStr.capitalize "fast_Food" = "Fast_food".
Proof. reflexivity. Qed.

Example replace_leftmost_matches :
  PyStr.replace "aa" "b" "aaa_aaaa" = "ba_bb".
Proof. reflexivity. Qed.

Example replace_empty_pattern : PyStr.replace "" "-" "abc" = "-a-b-c-".
Proof. reflexivity. Qed.

Example title_of_bicycle_parking :
  title_of "bicycle_parking" = "Bicycle parking".
Proof. reflexivity. Qed.

Lemma get_map f s p :
  String.get p (PyStr.map f s) = option_map f (String.get p s).
Proof.
  revert p. induction s as [|c r IH]; intros [|p]; simpl; auto.
Qed.

Lemma length_str_map f s :
  String.length (PyStr.map f s) = String.length s.
Proof. induction s; simpl; congruence. Qed.

Lemma prefix_underscore c r :
  String.prefix "_" (String c r) = Ascii.eqb c "_".
Proof.
  destruct (Ascii.eqb_spec c "_") as [->|Hne].
  - destruct r; reflexivity.
  - change (String.prefix "_" (String c r))
      with (if ascii_dec "_" c then String.prefix "" r else false).
    destruct (ascii_dec "_" c) as [E|_]; [congruence|reflexivity].
Qed.

(** Replacing the one-character string ["_"] by [" "] is a character-wise
    substitution. *)
Lemma replace_underscore s :
  PyStr.replace "_" " " s = PyStr.map space_for_underscore s.
Proof.
  unfold PyStr.replace.
  induction s as [|c r IH]; [reflexivity|].
  cbn [PyStr.replace_from PyStr.map]. rewrite prefix_underscore.
  unfold space_for_underscore at 1.
  destruct (Ascii.eqb c "_"); simpl; rewrite IH; reflexivity.
Qed.

Lemma title_of_spec name : is_title_of name (title_of name).
Proof.
  unfold is_title_of, title_of. rewrite replace_underscore. split.
  - rewrite length_str_map.
    destruct name; simpl; [|rewrite length_str_map]; reflexivity.
  - intros p c Hget. rewrite get_map. unfold title_char.
    destruct name as [|c0 r]; [discriminate|].
    destruct p as [|p]; simpl in *.
    + injection Hget as ->. reflexivity.
    + rewrite get_map, Hget. reflexivity.
Qed.

(** ** Look-ups *)

Lemma lookup_map {A B} (f : A -> B) (l : list A) (k : nat) :
  List.map f l !! k = option_map f (l !! k).
Proof. revert k. induction l as [|x l IH]; intros [|k]; simpl; auto. Qed.

Lemma length_drop_last n (l : list string) :
  length (drop_last n l) = length l - n.
Proof. unfold drop_last. rewrite length_firstn. lia. Qed.

Lemma df_loc_missing df label :
  ~ In label (df_index df) -> df_loc df label = Raise KeyError.
Proof.
  unfold df_loc, df_index. intros Hnot.
  replace (List.filter _ (df_rows df)) with (@nil (string * list Z));
    [reflexivity|].
  induction (df_rows df) as [|[n v] rows IH]; [reflexivity|].
  simpl in *. destruct (String.eqb_spec n label) as [->|_].
  - exfalso. apply Hnot. now left.
  - apply IH. intros Hin. apply Hnot. now right.
Qed.

Lemma df_loc_unique df label :
  count_label label df = 1 -> exists s, df_loc df label = Ok (LocSeries s).
Proof.
  unfold count_label, df_loc.
  destruct (List.filter _ (df_rows df)) as [|[n v] [|? ?]]; try discriminate.
  intros _. eexists. reflexivity.
Qed.

(** ** Stepping through a call *)

Section Stepping.
Context {T : Type}.
Implicit Types w : World T.

Lemma on_axes_Some i j f w a :
  panel (fig w) i j = Some a -> on_axes i j f w = (Ok tt, upd i j f w).
Proof. unfold on_axes. intros ->. reflexivity. Qed.

Lemma get_axes_Some i j w a :
  panel (fig w) i j = Some a -> get_axes i j w = (Ok a, w).
Proof. unfold get_axes. intros ->. reflexivity. Qed.

Lemma panel_upd i j f w a :
  panel (fig w) i j = Some a -> panel (fig (upd i j f w)) i j = Some (f a).
Proof.
  unfold panel, upd; simpl.
  destruct (grid (fig w) !! i) as [row|] eqn:E; [|discriminate].
  intros Hj. rewrite list_lookup_alter_eq, E. simpl.
  rewrite list_lookup_alter_eq, Hj. reflexivity.
Qed.

Lemma upd_same i j f w : (forall a, f a = a) -> upd i j f w = w.
Proof.
  intros Hf. destruct w as [t [sz sh g tl s] k]. unfold upd, set_grid; simpl.
  do 2 f_equal. apply list_alter_id. intros row. apply list_alter_id. exact Hf.
Qed.

Lemma upd_id i j w : upd i j (fun a => a) w = w.
Proof. apply upd_same. reflexivity. Qed.

Lemma var_k_upd i j f w : var_k (upd i j f w) = var_k w.
Proof. reflexivity. Qed.

Lemma input_upd i j f w : input (upd i j f w) = input w.
Proof. reflexivity. Qed.

Lemma exec_bind_ok {A B} (m : M T A) (k : A -> M T B) w a w1 r :
  m w = (Ok a, w1) -> k a w1 = r -> bind m k w = r.
Proof. unfold bind. intros -> H. exact H. Qed.

Lemma exec_bind_raise {A B} (m : M T A) (k : A -> M T B) w e w1 :
  m w = (Raise e, w1) -> bind m k w = (Raise e, w1).
Proof. unfold bind. intros ->. reflexivity. Qed.

Lemma exec_for_nil (body : nat -> M T ctl) w : for_in [] body w = (Ok tt, w).
Proof. reflexivity. Qed.

Lemma exec_for_next x l (body : nat -> M T ctl) w w1 r :
  body x w = (Ok Next, w1) -> for_in l body w1 = r ->
  for_in (x :: l) body w = r.
Proof. simpl. unfold bind. intros -> H. exact H. Qed.

Lemma exec_for_break x l (body : nat -> M T ctl) w w1 :
  body x w = (Ok Break, w1) -> for_in (x :: l) body w = (Ok tt, w1).
Proof. simpl. unfold bind. intros ->. reflexivity. Qed.

Lemma exec_for_raise x l (body : nat -> M T ctl) w e w1 :
  body x w = (Raise e, w1) -> for_in (x :: l) body w = (Raise e, w1).
Proof. simpl. unfold bind. intros ->. reflexivity. Qed.

End Stepping.

Lemma add_no_layer a : add_layers [] a = a.
Proof. destruct a. unfold add_layers; simpl. rewrite app_nil_r. reflexivity. Qed.

(** One successful [ax[i, j]] or [ax[i, j].method(..)]: rewrite the call,
    and remember what the panel holds afterwards. *)
Ltac axes_step :=
  match goal with
  | Hp : panel (fig ?w) ?i ?j = Some ?a |- context [get_axes ?i ?j ?w] =>
      rewrite (get_axes_Some i j w a Hp);
      cbv beta iota; rewrite ?var_k_upd, ?input_upd
  | Hp : panel (fig ?w) ?i ?j = Some ?a |- context [on_axes ?i ?j ?f ?w] =>
      rewrite (on_axes_Some i j f w a Hp);
      apply (panel_upd i j f w a) in Hp;
      cbv beta iota; rewrite ?var_k_upd, ?input_upd
  end.

(** *** The body of [scatterplot]'s loop *)

Lemma scatter_panel_ok logx logy i j (w : World DataFrame) a x n v :
  panel (fig w) i j = Some a ->
  df_loc (input w) "total_population" = Ok x ->
  df_rows (input w) !! var_k w = Some (n, v) ->
  scatter_sizes_match x (mkSeries n v) = true ->
  scatter_panel logx logy i j w =
    (Ok (if Nat.eqb (var_k w + 1) 10 then Break else Next),
     after_scatter logx logy i j x (mkSeries n v) w).
Proof.
  intros Hp Hloc Hrow Hsize.
  assert (Hname : index_at (df_index (input w)) (var_k w) = Ok n).
  { unfold index_at, df_index. rewrite lookup_map, Hrow. reflexivity. }
  unfold scatter_panel, ax_scatter, bind, get_input, get_k, set_k, eval, ret.
  cbv beta iota. axes_step. rewrite Hloc. unfold df_iloc. rewrite Hrow.
  cbv beta iota. rewrite Hsize.
  repeat first [ axes_step | rewrite Hname; cbv beta iota ].
  unfold after_scatter.
  destruct logx, logy; unfold when, ret, apply_if; repeat axes_step;
    rewrite ?upd_id; cbv beta iota; cbn [var_k]; rewrite ?var_k_upd;
    destruct (Nat.eqb (var_k w + 1) 10); reflexivity.
Qed.

Lemma scatter_panel_no_key logx logy i j (w : World DataFrame) a e :
  panel (fig w) i j = Some a ->
  df_loc (input w) "total_population" = Raise e ->
  scatter_panel logx logy i j w = (Raise e, w).
Proof.
  intros Hp Hloc. unfold scatter_panel, bind, get_input, eval.
  cbv beta iota. axes_step. rewrite Hloc. reflexivity.
Qed.

Lemma scatter_panel_no_row logx logy i j (w : World DataFrame) a x :
  panel (fig w) i j = Some a ->
  df_loc (input w) "total_population" = Ok x ->
  df_rows (input w) !! var_k w = None ->
  scatter_panel logx logy i j w = (Raise IndexError, w).
Proof.
  intros Hp Hloc Hrow. unfold scatter_panel, bind, get_input, get_k, eval.
  cbv beta iota. axes_step. rewrite Hloc. unfold df_iloc. rewrite Hrow.
  reflexivity.
Qed.

Lemma scatter_panel_mismatch logx logy i j (w : World DataFrame) a x n v :
  panel (fig w) i j = Some a ->
  df_loc (input w) "total_population" = Ok x ->
  df_rows (input w) !! var_k w = Some (n, v) ->
  scatter_sizes_match x (mkSeries n v) = false ->
  scatter_panel logx logy i j w = (Raise ValueError, w).
Proof.
  intros Hp Hloc Hrow Hsize.
  unfold scatter_panel, ax_scatter, bind, get_input, get_k, eval.
  cbv beta iota. axes_step. rewrite Hloc. unfold df_iloc. rewrite Hrow.
  cbv beta iota. rewrite Hsize. reflexivity.
Qed.

(** *** The body of [choropleth]'s loop *)

Lemma choropleth_panel_ok lib columns cmap i j (w : World GeoDataFrame) a c :
  panel (fig w) i j = Some a ->
  columns !! var_k w = Some c ->
  plot_error (lib (map_layer (input w) cmap c)) = None ->
  choropleth_panel lib columns cmap i j w =
    (Ok (if Nat.eqb (var_k w + 1) 10 then Break else Next),
     after_map lib cmap i j (input w) c w).
Proof.
  intros Hp Hcol Hlib.
  assert (Hname : index_at columns (var_k w) = Ok c).
  { unfold index_at. rewrite Hcol. reflexivity. }
  unfold after_map, plot_effect.
  unfold choropleth_panel, to_crs_copy, gdf_plot, bind, get_input, get_k,
    set_k, eval, ret.
  cbv beta iota zeta. rewrite Hname. axes_step.
  fold (map_layer (input w) cmap c).
  destruct (lib (map_layer (input w) cmap c)) as [| |e];
    [| |discriminate Hlib]; cbn [was_drawn].
  - change (add_layers [map_layer (input w) cmap c])
      with (add_layer (map_layer (input w) cmap c)).
    repeat first [ axes_step | rewrite Hname; cbv beta iota ].
    cbv beta iota; cbn [var_k]; rewrite ?var_k_upd;
      destruct (Nat.eqb (var_k w + 1) 10); reflexivity.
  - rewrite (upd_same i j (add_layers []) w add_no_layer).
    repeat first [ axes_step | rewrite Hname; cbv beta iota ].
    cbv beta iota; cbn [var_k]; rewrite ?var_k_upd;
      destruct (Nat.eqb (var_k w + 1) 10); reflexivity.
Qed.

Lemma choropleth_panel_fails lib columns cmap i j (w : World GeoDataFrame) a c e :
  panel (fig w) i j = Some a ->
  columns !! var_k w = Some c ->
  plot_error (lib (map_layer (input w) cmap c)) = Some e ->
  choropleth_panel lib columns cmap i j w = (Raise e, w).
Proof.
  intros Hp Hcol Hlib.
  unfold choropleth_panel, to_crs_copy, gdf_plot, bind, get_input, get_k,
    eval, ret.
  cbv beta iota zeta. unfold index_at. rewrite Hcol. cbv beta iota.
  axes_step. fold (map_layer (input w) cmap c).
  destruct (lib (map_layer (input w) cmap c)) as [| |e'];
    try discriminate Hlib.
  injection Hlib as ->. reflexivity.
Qed.

Lemma choropleth_panel_no_column lib columns cmap i j (w : World GeoDataFrame) :
  columns !! var_k w = None ->
  choropleth_panel lib columns cmap i j w = (Raise IndexError, w).
Proof.
  intros Hcol.
  unfold choropleth_panel, to_crs_copy, bind, get_input, get_k, eval, ret.
  cbv beta iota zeta. unfold index_at. rewrite Hcol. reflexivity.
Qed.

(** *** Running the whole function *)

(** Bring the world of the goal to a value: records of lists of records,
    with the table's cells and labels, and the answers of the library, as
    leaves. *)
Ltac norm_world :=
  cbv beta iota zeta delta
    [fresh after_scatter after_map next_k upd set_grid
     ret get_input get_k set_k modify_fig plt_subplots tight_layout plt_show
     input fig var_k grid figsize sharex tight shown
     lookup list_lookup alter list_alter repeat seq
     df_rows gdf_data gdf_columns drop_last firstn List.map fst snd length
     Nat.sub Nat.eqb Nat.add Nat.mul Nat.ltb Nat.leb
     add_scatter add_layer add_layers plot_effect map_layer
     with_title with_xlabel with_ylabel with_xscale
     with_yscale with_axis_off removed new_axes app no_figure
     scatters layers title xlabel ylabel xscale yscale axis_on in_figure
     s_name s_values option_map
     first_false first_failure scatter_tries plot_tries
     grid_of scatter_cell scatter_drawn map_drawn map_cell title_of scale_of
     apply_if remove_at].

Ltac scatter_step :=
  first
    [ eapply scatter_panel_ok;
        [ reflexivity | eassumption | reflexivity | eassumption ]
    | eapply scatter_panel_mismatch;
        [ reflexivity | eassumption | reflexivity | eassumption ]
    | eapply scatter_panel_no_row; [ reflexivity | eassumption | reflexivity ]
    | eapply scatter_panel_no_key; [ reflexivity | eassumption ] ].

Ltac map_step :=
  first
    [ eapply choropleth_panel_ok; [ reflexivity | reflexivity | eassumption ]
    | eapply choropleth_panel_fails; [ reflexivity | reflexivity | eassumption ]
    | eapply choropleth_panel_no_column; reflexivity ].

(** Evaluate [m w] for a program [m] made of binds, loops and loop bodies,
    keeping the world in normal form after every statement. *)
Ltac exec :=
  norm_world;
  lazymatch goal with
  | |- bind _ _ _ = _ =>
      first [ eapply exec_bind_ok; [ exec | cbv beta; exec ]
            | eapply exec_bind_raise; exec ]
  | |- for_in nil _ _ = _ => apply exec_for_nil
  | |- for_in (cons _ _) _ _ = _ =>
      first [ eapply exec_for_next; [ cbv beta; exec | exec ]
            | eapply exec_for_break; cbv beta; exec
            | eapply exec_for_raise; cbv beta; exec ]
  | |- scatter_panel _ _ _ _ _ = _ => scatter_step
  | |- choropleth_panel _ _ _ _ _ _ = _ => map_step
  | |- _ => reflexivity
  end.

(** Use what is known about the library's answers and the size checks. *)
Ltac use_answers :=
  repeat match goal with
         | H : scatter_sizes_match _ _ = _ |- _ => rewrite H; clear H
         | H : plot_error _ = _ |- _ => rewrite H; clear H
         end.

(** Run the program, then compare with the closed form. *)
Ltac run_and_compare :=
  etransitivity;
  [ exec
  | try match goal with
        | logx : bool, logy : bool |- _ => destruct logx, logy
        end;
    norm_world; use_answers; norm_world; reflexivity ].

(** Follow the rows one by one: either [scatter] refuses the row, and the
    run ends there, or it accepts it and the next row is looked at. *)
Ltac scatter_paths x rows fuel :=
  lazymatch fuel with
  | S ?fuel' =>
      lazymatch rows with
      | cons (?n, ?v) ?rest =>
          destruct (scatter_sizes_match x (mkSeries n v)) eqn:?;
          [ scatter_paths x rest fuel' | run_and_compare ]
      | _ => run_and_compare
      end
  | O => run_and_compare
  end.

(** Whatever the table, a call of [scatterplot] ends as [scatter_result]
    says: a [KeyError] before anything is drawn when the label is missing,
    a [ValueError] at the first row that [scatter] refuses, an
    [IndexError] after [n] panels when there are [n < 10] rows, and ten
    panels followed by the two deletions otherwise. *)
Lemma scatterplot_run df size logx logy :
  run_scatterplot df size logx logy = scatter_result df size logx logy.
Proof.
  unfold scatter_result.
  generalize (eq_refl (df_loc df "total_population")).
  generalize (df_loc df "total_population") at 2 3.
  intros xo Hloc. destruct df as [cols rows].
  unfold run_scatterplot, scatter_result_of.
  cbv beta iota zeta delta [scatterplot range seq].
  destruct xo as [x|e].
  - do 10 (destruct rows as [|[? ?] rows];
           [ match goal with
             | |- context [mkDataFrame _ ?rs] => scatter_paths x rs 10
             end | ]).
    match goal with
    | |- context [mkDataFrame _ ?rs] => scatter_paths x rs 10
    end.
  - run_and_compare.
Qed.

(** Follow the columns one by one: either the library refuses the call,
    and the run ends there, or the next column is looked at. *)
Ltac map_paths lib gdf cmap cols :=
  lazymatch cols with
  | cons ?c ?rest =>
      destruct (plot_error
                  (lib (mkMapLayer (to_crs 3857 gdf) c true "fisher_jenks" cmap)))
        eqn:?;
      [ run_and_compare | map_paths lib gdf cmap rest ]
  | _ => run_and_compare
  end.

Ltac all_map_paths lib cmap :=
  match goal with
  | |- context [fresh ?gdf] =>
      let cols := eval cbv in (firstn 10 (drop_last 3 (gdf_columns gdf))) in
      map_paths lib gdf cmap cols
  end.

(** The same for [choropleth]: the exception of the first plot call that
    the library refuses, an [IndexError] after [n] maps when only [n < 10]
    columns precede the last three, ten maps and the two deletions
    otherwise. *)
Lemma choropleth_run lib gdf size cmap :
  run_choropleth lib gdf size cmap = choropleth_result lib gdf size cmap.
Proof.
  destruct gdf as [crs data].
  unfold run_choropleth, choropleth_result.
  cbv beta iota zeta delta [choropleth range seq].
  do 13 (destruct data as [|[? ?] data]; [ all_map_paths lib cmap | ]).
  all_map_paths lib cmap.
Qed.
(** ** The first refusal *)

Lemma scatter_tries_series df s :
  first_false (scatter_tries df (LocSeries s)) = None.
Proof.
  unfold scatter_tries.
  induction (firstn 10 (df_rows df)) as [|r rs IH]; [reflexivity|].
  simpl. simpl in IH. rewrite IH. reflexivity.
Qed.

Lemma length_scatter_tries df x : length (scatter_tries df x) <= 10.
Proof.
  unfold scatter_tries. rewrite List.length_map, length_firstn. lia.
Qed.

Lemma length_plot_tries lib gdf cmap : length (plot_tries lib gdf cmap) <= 10.
Proof.
  unfold plot_tries. rewrite List.length_map, length_firstn. lia.
Qed.

Lemma first_false_lt bs k : first_false bs = Some k -> k < length bs.
Proof.
  revert k. induction bs as [|[|] bs IH]; intros k; cbn [first_false length].
  - discriminate.
  - destruct (first_false bs) as [k'|]; [|discriminate].
    intros E. injection E as <-. specialize (IH k' eq_refl). lia.
  - intros E. injection E as <-. lia.
Qed.

Lemma first_failure_lt os k e :
  first_failure os = Some (k, e) -> k < length os.
Proof.
  revert k e. induction os as [|o os IH]; intros k e;
    cbn [first_failure length].
  - discriminate.
  - destruct (plot_error o).
    + intros E. injection E as <- _. lia.
    + destruct (first_failure os) as [[k' e']|]; [|discriminate].
      intros E. injection E as <- _. specialize (IH k' e' eq_refl). lia.
Qed.

Lemma first_failure_None os :
  first_failure os = None <-> Forall (fun o => plot_error o = None) os.
Proof.
  induction os as [|o os IH]; cbn [first_failure].
  - split; [constructor | reflexivity].
  - destruct (plot_error o) eqn:E.
    + split; [discriminate|]. intros H. inversion H; subst. congruence.
    + destruct (first_failure os) as [[k e]|].
      * split; [discriminate|]. intros H. inversion H; subst.
        apply IH in H3. discriminate H3.
      * split; [|reflexivity]. intros _. constructor; [exact E|].
        apply IH. reflexivity.
Qed.

Lemma plot_tries_accepted lib gdf cmap :
  first_failure (plot_tries lib gdf cmap) = None <->
  Forall (fun c => plot_error (lib (map_layer gdf cmap c)) = None)
         (firstn 10 (drop_last 3 (gdf_columns gdf))).
Proof.
  rewrite first_failure_None. unfold plot_tries. rewrite Forall_map.
  reflexivity.
Qed.

Lemma grid_of_ext nrows ncols cell cell' m :
  (forall k, k < m -> cell k = cell' k) ->
  grid_of nrows ncols cell m = grid_of nrows ncols cell' m.
Proof.
  intros H. unfold grid_of. apply map_ext. intros i. apply map_ext. intros j.
  cbv zeta. destruct (Nat.ltb_spec (i * ncols + j) m); [apply H; lia|reflexivity].
Qed.

(** ** Panels of the closed forms *)

Lemma panel_grid_of nrows ncols cell m sz sh t s i j :
  panel (mkFigure sz sh (grid_of nrows ncols cell m) t s) i j =
  if (i <? nrows)%nat && (j <? ncols)%nat
  then Some (if (i * ncols + j <? m)%nat then cell (i * ncols + j)%nat
             else new_axes)
  else None.
Proof.
  unfold panel, grid_of; cbn [grid]. rewrite lookup_map.
  destruct (Nat.ltb_spec i nrows) as [Hi|Hi].
  - rewrite lookup_seq_lt by exact Hi. cbn [option_map]. rewrite lookup_map.
    destruct (Nat.ltb_spec j ncols) as [Hj|Hj].
    + rewrite lookup_seq_lt by exact Hj. reflexivity.
    + rewrite lookup_seq_ge by exact Hj. reflexivity.
  - rewrite lookup_seq_ge by exact Hi. reflexivity.
Qed.

Lemma panel_remove_at sz sh t s g i' j' i j :
  panel (mkFigure sz sh (remove_at i' j' g) t s) i j =
  option_map (fun a => if Nat.eqb i i' && Nat.eqb j j' then removed a else a)
             (panel (mkFigure sz sh g t s) i j).
Proof.
  unfold panel, remove_at; cbn [grid]. rewrite list_lookup_alter.
  destruct (decide (i' = i)) as [->|Hi].
  - rewrite Nat.eqb_refl. destruct (g !! i) as [row|]; [|reflexivity].
    cbn [fmap option_fmap option_map andb]. rewrite list_lookup_alter.
    destruct (decide (j' = j)) as [->|Hj].
    + rewrite Nat.eqb_refl. destruct (row !! j); reflexivity.
    + destruct (Nat.eqb_spec j j') as [->|_]; [congruence|].
      destruct (row !! j); reflexivity.
  - destruct (Nat.eqb_spec i i') as [->|_]; [congruence|].
    cbn [andb]. destruct (g !! i) as [row|]; [|reflexivity].
    destruct (row !! j); reflexivity.
Qed.

(** ** The caller's table is only read *)

Section Frame.
Context {T : Type}.

Lemma keeps_ret {A} (a : A) : keeps_input (@ret T A a).
Proof. intros w. reflexivity. Qed.

Lemma keeps_eval {A} (o : outcome A) : keeps_input (@eval T A o).
Proof. intros w. reflexivity. Qed.

Lemma keeps_get_input : keeps_input (@get_input T).
Proof. intros w. reflexivity. Qed.

Lemma keeps_get_k : keeps_input (@get_k T).
Proof. intros w. reflexivity. Qed.

Lemma keeps_set_k n : keeps_input (@set_k T n).
Proof. intros w. reflexivity. Qed.

Lemma keeps_modify_fig f : keeps_input (@modify_fig T f).
Proof. intros w. reflexivity. Qed.

Lemma keeps_get_axes i j : keeps_input (@get_axes T i j).
Proof. intros w. unfold get_axes. destruct (panel (fig w) i j); reflexivity. Qed.

Lemma keeps_on_axes i j f : keeps_input (@on_axes T i j f).
Proof. intros w. unfold on_axes. destruct (panel (fig w) i j); reflexivity. Qed.

Lemma keeps_ax_scatter i j x y : keeps_input (@ax_scatter T i j x y).
Proof.
  unfold ax_scatter. destruct (scatter_sizes_match x y);
    [apply keeps_on_axes | intros w; reflexivity].
Qed.

Lemma keeps_gdf_plot lib i j l : keeps_input (@gdf_plot T lib i j l).
Proof.
  unfold gdf_plot. destruct (lib l);
    [apply keeps_on_axes | intros w; reflexivity | intros w; reflexivity].
Qed.

Lemma keeps_bind {A B} (m : M T A) (k : A -> M T B) :
  keeps_input m -> (forall a, keeps_input (k a)) -> keeps_input (bind m k).
Proof.
  intros Hm Hk w. unfold bind. specialize (Hm w).
  destruct (m w) as [[a|e] w1]; simpl in Hm.
  - rewrite Hk. exact Hm.
  - exact Hm.
Qed.

Lemma keeps_when b (m : M T unit) : keeps_input m -> keeps_input (when b m).
Proof. intros Hm. destruct b; [exact Hm | apply keeps_ret]. Qed.

Lemma keeps_if {A} (b : bool) (m1 m2 : M T A) :
  keeps_input m1 -> keeps_input m2 -> keeps_input (if b then m1 else m2).
Proof. destruct b; auto. Qed.

Lemma keeps_for_in l (body : nat -> M T ctl) :
  (forall x, keeps_input (body x)) -> keeps_input (for_in l body).
Proof.
  intros Hbody. induction l as [|x l IH]; [apply keeps_ret|].
  cbn [for_in]. apply keeps_bind; [apply Hbody|].
  intros [|]; [exact IH | apply keeps_ret].
Qed.

End Frame.

(** With [inplace=False] the table is read and a new frame is made; with
    [inplace=True] the caller's table is replaced by the re-projected one. *)
Lemma keeps_to_crs_copy epsg : keeps_input (to_crs_copy epsg).
Proof. intros w. reflexivity. Qed.

Lemma to_crs_inplace_writes epsg (w : World GeoDataFrame) :
  input (snd (to_crs_inplace epsg w)) = to_crs epsg (input w).
Proof. reflexivity. Qed.

Example to_crs_inplace_changes_the_table :
  ~ keeps_input (to_crs_inplace 3857).
Proof.
  intros H. specialize (H (fresh borough_map)).
  rewrite to_crs_inplace_writes in H. discriminate H.
Qed.

Create HintDb frame.
#[local] Hint Resolve keeps_ret keeps_eval keeps_get_input keeps_get_k
  keeps_set_k keeps_modify_fig keeps_get_axes keeps_on_axes keeps_ax_scatter
  keeps_gdf_plot keeps_to_crs_copy keeps_bind keeps_when keeps_if
  keeps_for_in : frame.

Lemma keeps_scatter_panel logx logy i j :
  keeps_input (scatter_panel logx logy i j).
Proof. unfold scatter_panel. auto 40 with frame. Qed.

Lemma keeps_choropleth_panel lib columns cmap i j :
  keeps_input (choropleth_panel lib columns cmap i j).
Proof. unfold choropleth_panel. auto 40 with frame. Qed.

Lemma keeps_scatterplot size logx logy :
  keeps_input (scatterplot size logx logy).
Proof.
  unfold scatterplot, plt_subplots, tight_layout, plt_show.
  pose proof keeps_scatter_panel. auto 20 with frame.
Qed.

Lemma keeps_choropleth lib size cmap :
  keeps_input (choropleth lib size cmap).
Proof.
  unfold choropleth, plt_subplots, tight_layout.
  pose proof keeps_choropleth_panel. auto 20 with frame.
Qed.

(** * The claims *)

(** ** C1 *)

(** C1, as the specification states it, fails: with the population row
    first in the table, [scatterplot] draws it on the y axis of the first
    panel (population against population). *)
Lemma population_first_is_plotted : ~ skips_population_row population_first.
Proof.
  intros H. specialize (H (16, 12)%Z false false).
  vm_compute in H. discriminate H.
Qed.

(** C1, amended: on a table with at least 10 rows and a unique
    "total_population" label, [scatterplot] completes, and for every
    [k < 10] the panel number [k] (row-major in the 3x4 grid) holds exactly
    one scatter: the population row on x against the table's row at
    position [k] on y, whatever its label.  The population row is therefore
    on a y axis exactly when it is one of the first 10 rows. *)
Theorem scatterplot_plots_first_ten_rows df size logx logy pop :
  df_loc df "total_population" = Ok (LocSeries pop) ->
  10 <= length (df_rows df) ->
  exists w,
    run_scatterplot df size logx logy = (Ok tt, w) /\
    (forall k, k < 10 ->
       exists n v a,
         df_rows df !! k = Some (n, v) /\
         panel (fig w) (k / 4) (k mod 4) = Some a /\
         scatters a = [(LocSeries pop, mkSeries n v)] /\
         in_figure a = true) /\
    population_plotted (fig w) =
      existsb (fun r => String.eqb (fst r) "total_population")
              (firstn 10 (df_rows df)).
Proof.
  intros Hloc Hlen. rewrite scatterplot_run. unfold scatter_result.
  rewrite Hloc. clear Hloc. unfold scatter_result_of.
  rewrite scatter_tries_series. destruct df as [cols rows].
  do 10 (destruct rows as [|[? ?] rows]; [simpl in Hlen; lia|]).
  eexists. split; [reflexivity|]. split.
  - intros k Hk.
    do 10 (destruct k as [|k];
           [do 3 eexists; repeat split; reflexivity|]).
    lia.
  - cbv beta iota zeta delta
      [population_plotted population_label all_axes plots_on_y fig grid
       concat existsb app scatters snd fst s_name firstn df_rows
       grid_of remove_at scatter_cell scatter_drawn List.map seq
       lookup list_lookup alter list_alter removed new_axes
       Nat.add Nat.mul Nat.ltb Nat.leb in_figure layers title xlabel ylabel
       xscale yscale axis_on].
    rewrite !orb_false_r. reflexivity.
Qed.

Lemma scatterplot_plots_first_ten_rows_witness :
  df_loc population_first "total_population"
    = Ok (LocSeries (mkSeries "total_population" [270000; 281000; 239000]%Z)) /\
  10 <= length (df_rows population_first) /\
  exists w,
    run_scatterplot population_first (16, 12)%Z false false = (Ok tt, w) /\
    (forall k, k < 10 ->
       exists n v a,
         df_rows population_first !! k = Some (n, v) /\
         panel (fig w) (k / 4) (k mod 4) = Some a /\
         scatters a =
           [(LocSeries (mkSeries "total_population" [270000; 281000; 239000]%Z),
             mkSeries n v)] /\
         in_figure a = true) /\
    population_plotted (fig w) =
      existsb (fun r => String.eqb (fst r) "total_population")
              (firstn 10 (df_rows population_first)).
Proof.
  split; [reflexivity|]. split; [simpl; lia|].
  apply (scatterplot_plots_first_ten_rows population_first (16, 12)%Z
           false false (mkSeries "total_population" [270000; 281000; 239000]%Z)).
  - reflexivity.
  - simpl; lia.
Defined.

(** ** C2 *)

(** C2, as the specification states it, fails: a table of ten rows (nine
    amenities and the population) has fewer than 11 rows, and [scatterplot]
    completes on it. *)
Lemma ten_rows_do_not_fail : ~ fails_below_eleven_rows ten_rows.
Proof.
  intros H.
  assert (Hlen : length (df_rows ten_rows) < 11) by (simpl; lia).
  specialize (H Hlen (16, 12)%Z false false).
  vm_compute in H. discriminate H.
Qed.

(** C2, amended: the bound is 10 rows, not 11.  On every table with fewer
    than 10 rows [scatterplot] raises; when the table has a unique
    "total_population" row the error is the out-of-range one, raised by
    [df.iloc[k]] at [k] equal to the number of rows. *)
Theorem scatterplot_fewer_than_ten_rows df size logx logy :
  length (df_rows df) < 10 ->
  (exists e, fst (run_scatterplot df size logx logy) = Raise e) /\
  (forall pop,
     df_loc df "total_population" = Ok (LocSeries pop) ->
     fst (run_scatterplot df size logx logy) = Raise IndexError /\
     var_k (snd (run_scatterplot df size logx logy)) = length (df_rows df) /\
     df_iloc df (length (df_rows df)) = Raise IndexError).
Proof.
  intros Hlen. rewrite scatterplot_run. unfold scatter_result, scatter_result_of.
  destruct (Nat.ltb_spec (length (df_rows df)) 10) as [_|Hge]; [|lia].
  split.
  - destruct (df_loc df "total_population") as [x|e];
      [destruct (first_false (scatter_tries df x))|]; eexists; reflexivity.
  - intros pop ->. rewrite scatter_tries_series.
    cbn [fst snd var_k]. repeat split.
    unfold df_iloc. rewrite (proj2 (lookup_ge_None _ _)) by lia. reflexivity.
Qed.

Lemma scatterplot_fewer_than_ten_rows_witness :
  length (df_rows five_rows) < 10 /\
  (exists e, fst (run_scatterplot five_rows (16, 12)%Z true false) = Raise e) /\
  (forall pop,
     df_loc five_rows "total_population" = Ok (LocSeries pop) ->
     fst (run_scatterplot five_rows (16, 12)%Z true false) = Raise IndexError /\
     var_k (snd (run_scatterplot five_rows (16, 12)%Z true false))
       = length (df_rows five_rows) /\
     df_iloc five_rows (length (df_rows five_rows)) = Raise IndexError).
Proof.
  split; [simpl; lia|].
  apply (scatterplot_fewer_than_ten_rows five_rows (16, 12)%Z true false).
  simpl; lia.
Defined.

(** ** C3 *)

(** C3, as the specification states it, fails: the title built for the
    label "ATM_cash_Point" is "Atm cash point", not "ATM cash Point";
    [str.capitalize] lower-cases everything after the first character. *)
Lemma mixed_case_title_is_lowered : ~ titles_as_specified mixed_case.
Proof.
  intros H.
  assert (E : exists a,
             panel (fig (snd (run_scatterplot mixed_case (16, 12)%Z false false)))
                   (0 / 4) (0 mod 4) = Some a /\
             is_populated a = true /\ title a = "Atm cash point").
  { vm_compute. eexists. repeat split. }
  destruct E as (a & Hp & Hpop & Ht).
  specialize (H (16, 12)%Z false false 0 _ _ a eq_refl Hp Hpop).
  rewrite Ht in H. clear Hp Hpop Ht.
  apply (f_equal (String.get 1)) in H. vm_compute in H. discriminate H.
Qed.

(** C3, amended: in both functions the final title of the panel of a metric
    is the metric's name with its first character upper-cased, every later
    character lower-cased, and underscores replaced by spaces; length and
    character positions are kept.  (Names are ASCII.) *)
Theorem panel_titles :
  (forall df size logx logy w k n v,
     run_scatterplot df size logx logy = (Ok tt, w) ->
     k < 10 ->
     df_rows df !! k = Some (n, v) ->
     PyStr.is_ascii n = true ->
     exists a, panel (fig w) (k / 4) (k mod 4) = Some a /\
               is_title_of n (title a)) /\
  (forall lib gdf size cmap w k c,
     run_choropleth lib gdf size cmap = (Ok tt, w) ->
     k < 10 ->
     drop_last 3 (gdf_columns gdf) !! k = Some c ->
     PyStr.is_ascii c = true ->
     exists a, panel (fig w) (k / 3) (k mod 3) = Some a /\
               is_title_of c (title a)).
Proof.
  split.
  - intros df size logx logy w k n v Hrun Hk Hrow _.
    rewrite scatterplot_run in Hrun. unfold scatter_result, scatter_result_of in Hrun.
    destruct (df_loc df "total_population") as [x|e]; [|discriminate].
    destruct (first_false (scatter_tries df x)); [discriminate|].
    destruct (length (df_rows df) <? 10)%nat; [discriminate|].
    injection Hrun as <-. cbn [fig].
    do 10 (destruct k as [|k];
           [ cbn; unfold scatter_cell; rewrite Hrow; eexists;
             split; [reflexivity | apply title_of_spec] |]).
    lia.
  - intros lib gdf size cmap w k c Hrun Hk Hcol _.
    rewrite choropleth_run in Hrun. unfold choropleth_result in Hrun.
    cbv zeta in Hrun.
    destruct (first_failure (plot_tries lib gdf cmap)) as [[? ?]|];
      [discriminate|].
    destruct (length (drop_last 3 (gdf_columns gdf)) <? 10)%nat; [discriminate|].
    injection Hrun as <-. cbn [fig].
    do 10 (destruct k as [|k];
           [ cbn; unfold map_cell; rewrite Hcol; eexists;
             split; [reflexivity | apply title_of_spec] |]).
    lia.
Qed.

Lemma panel_titles_witness :
  (exists a,
     panel (fig (snd (run_scatterplot mixed_case (16, 12)%Z false false)))
           (0 / 4) (0 mod 4) = Some a /\
     is_title_of "ATM_cash_Point" (title a)) /\
  (exists a,
     panel (fig (snd (run_choropleth sample_library ward_map (20, 20)%Z
                                     "viridis")))
           (3 / 3) (3 mod 3) = Some a /\
     is_title_of "bicycle_parking" (title a)).
Proof.
  split.
  - apply (proj1 panel_titles mixed_case (16, 12)%Z false false _ 0
             "ATM_cash_Point" [21; 18; 16]%Z);
      [vm_compute; reflexivity | lia | reflexivity | reflexivity].
  - apply (proj2 panel_titles sample_library ward_map (20, 20)%Z "viridis" _ 3
             "bicycle_parking");
      [vm_compute; reflexivity | lia | reflexivity | reflexivity].
Defined.

(** ** C4 *)

(** C4: on a table of exactly 11 rows, one of them labelled
    "total_population", [scatterplot] returns without raising and leaves 10
    populated panels and 2 deleted ones in the 3x4 grid. *)
Theorem scatterplot_eleven_rows df size logx logy :
  length (df_rows df) = 11 ->
  count_label "total_population" df = 1 ->
  exists w,
    run_scatterplot df size logx logy = (Ok tt, w) /\
    count_axes is_populated (fig w) = 10 /\
    count_axes is_deleted (fig w) = 2 /\
    length (all_axes (fig w)) = 12.
Proof.
  intros Hlen Hone. destruct (df_loc_unique _ _ Hone) as [pop Hloc].
  rewrite scatterplot_run. unfold scatter_result. rewrite Hloc. clear Hloc Hone.
  unfold scatter_result_of. rewrite scatter_tries_series.
  destruct df as [cols rows].
  do 11 (destruct rows as [|[? ?] rows]; [discriminate|]).
  destruct rows; [|discriminate].
  eexists. split; [reflexivity|]. repeat split.
Qed.

Lemma scatterplot_eleven_rows_witness :
  length (df_rows amenities) = 11 /\
  count_label "total_population" amenities = 1 /\
  exists w,
    run_scatterplot amenities (16, 12)%Z false true = (Ok tt, w) /\
    count_axes is_populated (fig w) = 10 /\
    count_axes is_deleted (fig w) = 2 /\
    length (all_axes (fig w)) = 12.
Proof.
  split; [reflexivity|]. split; [reflexivity|].
  apply (scatterplot_eleven_rows amenities (16, 12)%Z false true); reflexivity.
Defined.

(** ** C5 *)

(** C5, as the specification states it, fails: a table of 13 columns and
    three rows has fewer than 5 distinct values in every column, the
    "fisher_jenks" classification inside the first plot call raises
    [ValueError], and [choropleth] does not return. *)
Lemma three_rows_cannot_be_classified :
  ~ thirteen_columns_always_plot sample_library borough_map.
Proof.
  intros H. specialize (H eq_refl (20, 20)%Z "viridis").
  vm_compute in H. discriminate H.
Qed.

(** C5, amended: on a geospatial table of exactly 13 columns, when the
    plotting library draws each of the ten metric columns with the chosen
    colour map, [choropleth] returns without raising and leaves 10
    populated panels and 2 deleted ones in the 4x3 grid. *)
Theorem choropleth_thirteen_columns lib gdf size cmap :
  length (gdf_data gdf) = 13 ->
  Forall (fun c => lib (map_layer gdf cmap c) = Drawn)
         (firstn 10 (gdf_columns gdf)) ->
  exists w,
    run_choropleth lib gdf size cmap = (Ok tt, w) /\
    count_axes is_populated (fig w) = 10 /\
    count_axes is_deleted (fig w) = 2 /\
    length (all_axes (fig w)) = 12.
Proof.
  intros Hlen Hlib. rewrite choropleth_run. destruct gdf as [crs data].
  do 13 (destruct data as [|[? ?] data]; [discriminate|]).
  destruct data; [|discriminate].
  cbn [gdf_columns gdf_data List.map fst firstn] in Hlib.
  unfold map_layer in Hlib.
  repeat match goal with
         | H : Forall _ (_ :: _) |- _ => inversion H; clear H; subst
         end.
  unfold choropleth_result. norm_world.
  repeat match goal with
         | H : lib _ = Drawn |- _ => rewrite H; clear H
         end.
  eexists. split; [reflexivity|]. repeat split.
Qed.

Lemma choropleth_thirteen_columns_witness :
  length (gdf_data ward_map) = 13 /\
  Forall (fun c => sample_library (map_layer ward_map "viridis" c) = Drawn)
         (firstn 10 (gdf_columns ward_map)) /\
  exists w,
    run_choropleth sample_library ward_map (20, 20)%Z "viridis" = (Ok tt, w) /\
    count_axes is_populated (fig w) = 10 /\
    count_axes is_deleted (fig w) = 2 /\
    length (all_axes (fig w)) = 12.
Proof.
  assert (Hlib : Forall (fun c => sample_library (map_layer ward_map "viridis" c)
                                  = Drawn)
                        (firstn 10 (gdf_columns ward_map))).
  { repeat constructor. }
  split; [reflexivity|]. split; [exact Hlib|].
  exact (choropleth_thirteen_columns sample_library ward_map (20, 20)%Z
           "viridis" eq_refl Hlib).
Defined.

(** ** C6 *)

(** C6, as the specification states it, fails: on a table of 7 columns and
    three rows the first plot call raises [ValueError] (fewer than 5
    distinct values to classify), so the error is not the out-of-range
    one and [columns[k]] beyond the metric columns is never reached. *)
Lemma short_table_fails_in_the_library :
  ~ few_columns_fail_out_of_range sample_library small_map.
Proof.
  intros H.
  assert (Hlen : length (gdf_data small_map) < 13) by (simpl; lia).
  specialize (H Hlen (20, 20)%Z "viridis").
  vm_compute in H. discriminate H.
Qed.

(** C6, amended: on a geospatial table with fewer than 13 columns
    [choropleth] never returns.  When the plotting library refuses none of
    the columns that precede the last three, the error is the out-of-range
    one, raised by [columns[k]] at [k] equal to the number of those
    columns; otherwise it is the exception of the first plot call that the
    library refuses. *)
Theorem choropleth_too_few_columns lib gdf size cmap :
  length (gdf_data gdf) < 13 ->
  (exists e, fst (run_choropleth lib gdf size cmap) = Raise e) /\
  (Forall (fun c => plot_error (lib (map_layer gdf cmap c)) = None)
          (drop_last 3 (gdf_columns gdf)) ->
   exists w,
     run_choropleth lib gdf size cmap = (Raise IndexError, w) /\
     var_k w = length (drop_last 3 (gdf_columns gdf)) /\
     var_k w = length (gdf_data gdf) - 3 /\
     index_at (drop_last 3 (gdf_columns gdf)) (var_k w) = Raise IndexError).
Proof.
  intros Hlen. rewrite choropleth_run. unfold choropleth_result. cbv zeta.
  assert (Hn : length (drop_last 3 (gdf_columns gdf))
               = length (gdf_data gdf) - 3).
  { rewrite length_drop_last. unfold gdf_columns.
    rewrite List.length_map. reflexivity. }
  destruct (Nat.ltb_spec (length (drop_last 3 (gdf_columns gdf))) 10) as [_|Hge];
    [|lia].
  split.
  - destruct (first_failure (plot_tries lib gdf cmap)) as [[k e]|];
      eexists; reflexivity.
  - intros Hlib.
    assert (Hnone : first_failure (plot_tries lib gdf cmap) = None).
    { apply plot_tries_accepted. rewrite firstn_all2 by lia. exact Hlib. }
    rewrite Hnone. eexists. split; [reflexivity|]. cbn [var_k]. repeat split.
    + exact Hn.
    + unfold index_at. rewrite (proj2 (lookup_ge_None _ _)) by lia. reflexivity.
Qed.

Lemma choropleth_too_few_columns_witness :
  length (gdf_data small_ward_map) < 13 /\
  (exists e,
     fst (run_choropleth sample_library small_ward_map (20, 20)%Z "viridis")
       = Raise e) /\
  (Forall (fun c => plot_error (sample_library
                                  (map_layer small_ward_map "viridis" c)) = None)
          (drop_last 3 (gdf_columns small_ward_map)) ->
   exists w,
     run_choropleth sample_library small_ward_map (20, 20)%Z "viridis"
       = (Raise IndexError, w) /\
     var_k w = length (drop_last 3 (gdf_columns small_ward_map)) /\
     var_k w = length (gdf_data small_ward_map) - 3 /\
     index_at (drop_last 3 (gdf_columns small_ward_map)) (var_k w)
       = Raise IndexError).
Proof.
  split; [simpl; lia|].
  apply (choropleth_too_few_columns sample_library small_ward_map (20, 20)%Z
           "viridis").
  simpl; lia.
Defined.

Example small_ward_map_is_accepted :
  Forall (fun c => plot_error (sample_library
                                 (map_layer small_ward_map "viridis" c)) = None)
         (drop_last 3 (gdf_columns small_ward_map)).
Proof. repeat constructor. Qed.

(** ** C7 *)

(** C7: two calls of [scatterplot] on the same table that differ only in
    [logx] / [logy] end the same way (both return, or both raise the same
    error), and every panel holds the same (x, y) data in both; indeed the
    two panels agree on everything once their axis scales are erased. *)
Theorem log_flags_change_only_scales df size logx logy logx' logy' :
  fst (run_scatterplot df size logx logy)
    = fst (run_scatterplot df size logx' logy') /\
  forall i j,
    option_map scatters
        (panel (fig (snd (run_scatterplot df size logx logy))) i j)
      = option_map scatters
          (panel (fig (snd (run_scatterplot df size logx' logy'))) i j) /\
    option_map erase_scales
        (panel (fig (snd (run_scatterplot df size logx logy))) i j)
      = option_map erase_scales
          (panel (fig (snd (run_scatterplot df size logx' logy'))) i j).
Proof.
  rewrite !scatterplot_run. unfold scatter_result, scatter_result_of.
  destruct (df_loc df "total_population") as [x|e].
  - cbv zeta.
    destruct (first_false (scatter_tries df x)) as [k|];
      [|destruct (length (df_rows df) <? 10)%nat];
      (split; [reflexivity|]);
      intros i j; cbn [snd fig];
      rewrite ?panel_remove_at, !panel_grid_of;
      destruct ((i <? 3)%nat && (j <? 4)%nat); cbn [option_map];
      try (split; reflexivity);
      destruct (Nat.ltb (i * 4 + j) _);
      repeat match goal with
             | |- context [if ?b then _ else _] => destruct b
             end;
      unfold scatter_cell;
      try destruct (df_rows df !! (i * 4 + j)%nat) as [[n v]|];
      split; reflexivity.
  - split; [reflexivity|]. intros i j. split; reflexivity.
Qed.

(** ** C8 *)

(** C8: every panel on which [choropleth] has drawn holds exactly one map
    layer, made from the table re-projected to EPSG:3857 (same columns, new
    reference system), for the metric column at the panel's position,
    classified by the "fisher_jenks" scheme, coloured with the caller's
    colour map, with a legend; and the panel's axis is switched off.  This
    holds whatever the plotting library answers, and for the panels of a
    call that raises later as well. *)
Theorem choropleth_panels_drawn_alike lib gdf size cmap i j a :
  panel (fig (snd (run_choropleth lib gdf size cmap))) i j = Some a ->
  layers a <> [] ->
  exists column,
    index_at (drop_last 3 (gdf_columns gdf)) (i * 3 + j) = Ok column /\
    layers a = [mkMapLayer (to_crs 3857 gdf) column true "fisher_jenks" cmap] /\
    gdf_crs (to_crs 3857 gdf) = 3857%Z /\
    gdf_data (to_crs 3857 gdf) = gdf_data gdf /\
    axis_on a = false.
Proof.
  rewrite choropleth_run. unfold choropleth_result. cbv zeta.
  intros Hp Hdrawn.
  assert (Hcell : forall (b : bool) (f : Axes -> Axes),
            (forall c, layers (f c) = layers c /\ axis_on (f c) = axis_on c) ->
            Some (f (if b
                     then map_cell lib gdf cmap (drop_last 3 (gdf_columns gdf))
                                   (i * 3 + j)
                     else new_axes)) = Some a ->
            exists column,
              index_at (drop_last 3 (gdf_columns gdf)) (i * 3 + j) = Ok column /\
              layers a
                = [mkMapLayer (to_crs 3857 gdf) column true "fisher_jenks" cmap] /\
              gdf_crs (to_crs 3857 gdf) = 3857%Z /\
              gdf_data (to_crs 3857 gdf) = gdf_data gdf /\
              axis_on a = false).
  { intros b f Hf E. injection E as <-.
    destruct (Hf (if b then map_cell lib gdf cmap
                                     (drop_last 3 (gdf_columns gdf)) (i * 3 + j)
                  else new_axes)) as [Hl Ha].
    rewrite Hl, Ha in *. clear Hl Ha Hf.
    unfold map_cell, index_at in *.
    destruct b; [|exfalso; apply Hdrawn; reflexivity].
    destruct (drop_last 3 (gdf_columns gdf) !! (i * 3 + j)%nat) as [c|];
      [|exfalso; apply Hdrawn; reflexivity].
    unfold map_drawn in *. cbn [layers axis_on] in *.
    destruct (was_drawn (lib (map_layer gdf cmap c)));
      [|exfalso; apply Hdrawn; reflexivity].
    exists c. repeat split. }
  destruct (first_failure (plot_tries lib gdf cmap)) as [[k e]|];
    [|destruct (length (drop_last 3 (gdf_columns gdf)) <? 10)%nat];
    cbn [snd fig] in Hp;
    rewrite ?panel_remove_at, !panel_grid_of in Hp;
    (destruct ((i <? 4)%nat && (j <? 3)%nat); [|discriminate Hp]);
    cbn [option_map] in Hp.
  - refine (Hcell _ (fun c => c) _ Hp). intros c; split; reflexivity.
  - refine (Hcell _ (fun c => c) _ Hp). intros c; split; reflexivity.
  - revert Hp.
    set (r1 := fun a0 : Axes =>
                 if (i =? 3)%nat && (j =? 1)%nat then removed a0 else a0).
    set (r2 := fun a0 : Axes =>
                 if (i =? 3)%nat && (j =? 2)%nat then removed a0 else a0).
    intros Hp. refine (Hcell _ (fun c => r2 (r1 c)) _ Hp).
    intros c. unfold r1, r2.
    destruct ((i =? 3)%nat && (j =? 1)%nat), ((i =? 3)%nat && (j =? 2)%nat);
      split; reflexivity.
Qed.

Lemma choropleth_panels_drawn_alike_witness :
  exists a,
    panel (fig (snd (run_choropleth sample_library ward_map (20, 20)%Z "magma")))
          1 2 = Some a /\
    layers a <> [] /\
    exists column,
      index_at (drop_last 3 (gdf_columns ward_map)) (1 * 3 + 2) = Ok column /\
      layers a
        = [mkMapLayer (to_crs 3857 ward_map) column true "fisher_jenks"
                      "magma"] /\
      gdf_crs (to_crs 3857 ward_map) = 3857%Z /\
      gdf_data (to_crs 3857 ward_map) = gdf_data ward_map /\
      axis_on a = false.
Proof.
  assert (Hp : exists a,
             panel (fig (snd (run_choropleth sample_library ward_map (20, 20)%Z
                                             "magma"))) 1 2
               = Some a /\ layers a <> []).
  { vm_compute. eexists. split; [reflexivity | discriminate]. }
  destruct Hp as (a & Hp & Hl). exists a. split; [exact Hp|]. split; [exact Hl|].
  exact (choropleth_panels_drawn_alike sample_library ward_map (20, 20)%Z
           "magma" 1 2 a Hp Hl).
Defined.

(** ** C9 *)

(** C9: neither function changes the table it was given.  After any call
    of [scatterplot] or [choropleth], returning or raising and whatever the
    plotting library answers, the caller's table is what it was.  Both
    functions only read their table: the re-projection is the copying
    [to_crs_copy] (no [inplace=True] in the source), and the frame handed
    to the plotting library is that copy.  The statement is not true of
    every program: [to_crs_inplace_changes_the_table] shows the in-place
    re-projection failing it. *)
Theorem inputs_are_not_mutated :
  (forall df size logx logy,
     input (snd (run_scatterplot df size logx logy)) = df) /\
  (forall lib gdf size cmap,
     input (snd (run_choropleth lib gdf size cmap)) = gdf).
Proof.
  split.
  - intros df size logx logy. unfold run_scatterplot.
    apply (keeps_scatterplot size logx logy (fresh df)).
  - intros lib gdf size cmap. unfold run_choropleth.
    apply (keeps_choropleth lib size cmap (fresh gdf)).
Qed.

(** ** C10 *)

(** C10: when no row of the table is labelled "total_population",
    [scatterplot] raises the key-lookup error on the first panel, before
    anything is drawn and before [k] moves, however many rows there are. *)
Theorem missing_population_label df size logx logy :
  ~ In "total_population" (df_index df) ->
  exists w,
    run_scatterplot df size logx logy = (Raise KeyError, w) /\
    var_k w = 0 /\
    count_axes is_populated (fig w) = 0.
Proof.
  intros Hmiss. rewrite scatterplot_run. unfold scatter_result.
  rewrite (df_loc_missing _ _ Hmiss).
  eexists. split; [reflexivity|]. split; reflexivity.
Qed.

Lemma missing_population_label_witness :
  ~ In "total_population" (df_index no_population) /\
  length (df_rows no_population) = 11 /\
  exists w,
    run_scatterplot no_population (16, 12)%Z false false
      = (Raise KeyError, w) /\
    var_k w = 0 /\
    count_axes is_populated (fig w) = 0.
Proof.
  assert (Hmiss : ~ In "total_population" (df_index no_population)).
  { simpl. intros H.
    repeat (destruct H as [H|H]; [discriminate H|]). exact H. }
  split; [exact Hmiss|]. split; [reflexivity|].
  exact (missing_population_label no_population (16, 12)%Z false false Hmiss).
Defined.

(** * Further properties of the two functions *)

(** ** When a call returns *)

Lemma df_loc_present df label :
  In label (df_index df) -> exists x, df_loc df label = Ok x.
Proof.
  unfold df_loc, df_index. intros Hin.
  apply in_map_iff in Hin. destruct Hin as ([n v] & Hn & Hin).
  assert (Hf : In (n, v)
                  (List.filter (fun r => String.eqb (fst r) label) (df_rows df))).
  { apply filter_In. split; [exact Hin|]. simpl in *. subst n.
    apply String.eqb_refl. }
  destruct (List.filter _ (df_rows df)) as [|[n1 v1] [|r2 rs]].
  - destruct Hf.
  - eexists. reflexivity.
  - eexists. reflexivity.
Qed.

Lemma df_loc_not_repeated df label x :
  count_label label df <= 1 -> df_loc df label = Ok x ->
  exists s, x = LocSeries s.
Proof.
  unfold count_label, df_loc.
  destruct (List.filter _ (df_rows df)) as [|[n v] [|? ?]]; simpl; intros Hc E.
  - discriminate E.
  - injection E as <-. eexists. reflexivity.
  - lia.
Qed.

(** X1: on a table in which the label "total_population" is not repeated,
    [scatterplot] returns normally exactly when some row carries that
    label and the table has at least 10 rows. *)
Theorem scatterplot_returns_iff df size logx logy :
  count_label "total_population" df <= 1 ->
  (fst (run_scatterplot df size logx logy) = Ok tt <->
   In "total_population" (df_index df) /\ 10 <= length (df_rows df)).
Proof.
  intros Hone. rewrite scatterplot_run. unfold scatter_result.
  split.
  - intros Hok.
    destruct (in_dec string_dec "total_population" (df_index df)) as [Hin|Hout].
    + split; [exact Hin|].
      destruct (df_loc_present _ _ Hin) as [x Hloc].
      destruct (df_loc_not_repeated _ _ _ Hone Hloc) as [s ->].
      rewrite Hloc in Hok. unfold scatter_result_of in Hok.
      rewrite scatter_tries_series in Hok.
      destruct (Nat.ltb_spec (length (df_rows df)) 10); [discriminate Hok|lia].
    + rewrite (df_loc_missing _ _ Hout) in Hok. discriminate Hok.
  - intros [Hin Hlen]. destruct (df_loc_present _ _ Hin) as [x Hloc].
    destruct (df_loc_not_repeated _ _ _ Hone Hloc) as [s ->].
    rewrite Hloc. unfold scatter_result_of. rewrite scatter_tries_series.
    destruct (Nat.ltb_spec (length (df_rows df)) 10); [lia|reflexivity].
Qed.

Lemma scatterplot_returns_iff_witness :
  count_label "total_population" amenities <= 1 /\
  (fst (run_scatterplot amenities (16, 12)%Z false false) = Ok tt <->
   In "total_population" (df_index amenities) /\
   10 <= length (df_rows amenities)).
Proof.
  assert (Hone : count_label "total_population" amenities <= 1).
  { vm_compute. lia. }
  split; [exact Hone|].
  exact (scatterplot_returns_iff amenities (16, 12)%Z false false Hone).
Defined.

(** X2: [choropleth] returns normally exactly when the table has at least
    13 columns and the plotting library refuses none of the first ten of
    the columns that precede the last three. *)
Theorem choropleth_returns_iff lib gdf size cmap :
  fst (run_choropleth lib gdf size cmap) = Ok tt <->
  13 <= length (gdf_data gdf) /\
  Forall (fun c => plot_error (lib (map_layer gdf cmap c)) = None)
         (firstn 10 (drop_last 3 (gdf_columns gdf))).
Proof.
  rewrite choropleth_run. unfold choropleth_result. cbv zeta.
  rewrite <- plot_tries_accepted.
  rewrite length_drop_last. unfold gdf_columns. rewrite List.length_map.
  destruct (first_failure (plot_tries lib gdf cmap)) as [[k e]|].
  - cbn [fst]. split; [intros H0; discriminate H0|].
    intros [_ H0]. discriminate H0.
  - destruct (Nat.ltb_spec (length (gdf_data gdf) - 3) 10); cbn [fst];
      split; intros H0.
    + discriminate H0.
    + destruct H0 as [H0 _]. lia.
    + split; [lia|reflexivity].
    + reflexivity.
Qed.

(** ** Rows that are never read *)

(** X3: [scatterplot] reads rows by position only up to the tenth.  Two
    tables whose first 10 rows agree, and on which the look-up of
    "total_population" gives the same result, end the same way with the
    same figure. *)
Theorem scatterplot_ignores_rows_after_tenth df df' size logx logy :
  firstn 10 (df_rows df) = firstn 10 (df_rows df') ->
  df_loc df "total_population" = df_loc df' "total_population" ->
  fst (run_scatterplot df size logx logy)
    = fst (run_scatterplot df' size logx logy) /\
  fig (snd (run_scatterplot df size logx logy))
    = fig (snd (run_scatterplot df' size logx logy)).
Proof.
  intros Hrows Hloc. rewrite !scatterplot_run.
  unfold scatter_result, scatter_result_of. rewrite <- Hloc.
  destruct (df_loc df "total_population") as [x|e]; [|split; reflexivity].
  assert (Hcell : forall k, k < 10 ->
            scatter_cell df logx logy x k = scatter_cell df' logx logy x k).
  { intros k Hk. unfold scatter_cell.
    rewrite <- (lookup_take_lt (df_rows df) 10 k) by exact Hk.
    rewrite <- (lookup_take_lt (df_rows df') 10 k) by exact Hk.
    rewrite Hrows. reflexivity. }
  assert (Hlen : Nat.min 10 (length (df_rows df))
                 = Nat.min 10 (length (df_rows df'))).
  { rewrite <- !length_firstn. rewrite Hrows. reflexivity. }
  assert (Htries : scatter_tries df x = scatter_tries df' x).
  { unfold scatter_tries. rewrite Hrows. reflexivity. }
  cbv zeta. rewrite <- Htries.
  destruct (first_false (scatter_tries df x)) as [k|] eqn:Hfirst.
  - split; [reflexivity|]. cbn [snd fig]. f_equal.
    apply grid_of_ext. intros k' Hk'. apply Hcell.
    pose proof (first_false_lt _ _ Hfirst).
    pose proof (length_scatter_tries df x). lia.
  - destruct (Nat.ltb_spec (length (df_rows df)) 10) as [Hlt|Hge];
      destruct (Nat.ltb_spec (length (df_rows df')) 10) as [Hlt'|Hge'];
      try lia.
    + assert (Hn : length (df_rows df) = length (df_rows df')) by lia.
      rewrite <- Hn. split; [reflexivity|]. cbn [snd fig]. f_equal.
      apply grid_of_ext. intros k' Hk'. apply Hcell. lia.
    + split; [reflexivity|]. cbn [snd fig]. f_equal. f_equal. f_equal.
      apply grid_of_ext. intros k' Hk'. apply Hcell. exact Hk'.
Qed.

Lemma scatterplot_ignores_rows_after_tenth_witness :
  firstn 10 (df_rows amenities) = firstn 10 (df_rows amenities_longer) /\
  df_loc amenities "total_population"
    = df_loc amenities_longer "total_population" /\
  fst (run_scatterplot amenities (16, 12)%Z true false)
    = fst (run_scatterplot amenities_longer (16, 12)%Z true false) /\
  fig (snd (run_scatterplot amenities (16, 12)%Z true false))
    = fig (snd (run_scatterplot amenities_longer (16, 12)%Z true false)).
Proof.
  split; [reflexivity|]. split; [reflexivity|].
  apply (scatterplot_ignores_rows_after_tenth amenities amenities_longer
           (16, 12)%Z true false); reflexivity.
Defined.

(** ** What is left behind when a call raises *)

(** X4: on a table with [n < 10] rows, exactly one of them labelled
    "total_population" (the look-up gives a series), [scatterplot] raises
    the out-of-range error after having drawn the [n] rows, in order, on
    the first [n] panels; no panel has been deleted, and neither
    [tight_layout] nor [plt.show] was reached. *)
Theorem scatterplot_partial_figure df size logx logy pop :
  df_loc df "total_population" = Ok (LocSeries pop) ->
  length (df_rows df) < 10 ->
  exists w,
    run_scatterplot df size logx logy = (Raise IndexError, w) /\
    plotted_rows (fig w) = List.map row_series (df_rows df) /\
    count_axes is_populated (fig w) = length (df_rows df) /\
    count_axes is_deleted (fig w) = 0 /\
    tight (fig w) = false /\
    shown (fig w) = false.
Proof.
  intros Hloc Hlen. rewrite scatterplot_run. unfold scatter_result.
  rewrite Hloc. clear Hloc. unfold scatter_result_of.
  rewrite scatter_tries_series. destruct df as [cols rows].
  do 10 (destruct rows as [|[? ?] rows];
         [eexists; split; [reflexivity|]; repeat split|]).
  simpl in Hlen. lia.
Qed.

Lemma scatterplot_partial_figure_witness :
  df_loc five_rows "total_population"
    = Ok (LocSeries (row_series population_row)) /\
  length (df_rows five_rows) < 10 /\
  exists w,
    run_scatterplot five_rows (16, 12)%Z false false = (Raise IndexError, w) /\
    plotted_rows (fig w) = List.map row_series (df_rows five_rows) /\
    count_axes is_populated (fig w) = length (df_rows five_rows) /\
    count_axes is_deleted (fig w) = 0 /\
    tight (fig w) = false /\
    shown (fig w) = false.
Proof.
  split; [reflexivity|]. split; [simpl; lia|].
  apply (scatterplot_partial_figure five_rows (16, 12)%Z false false
           (row_series population_row)).
  - reflexivity.
  - simpl; lia.
Defined.

(** ** The columns that are drawn *)

Lemma all_axes_grid_4_3 cell m sz sh t s :
  all_axes (mkFigure sz sh (grid_of 4 3 cell m) t s)
    = List.map (fun k => if (k <? m)%nat then cell k else new_axes) (seq 0 12).
Proof. reflexivity. Qed.

Lemma layers_after_delaxes cell sz sh t s :
  concat (List.map layers
            (all_axes (mkFigure sz sh
                         (remove_at 3 2 (remove_at 3 1 (grid_of 4 3 cell 10)))
                         t s)))
    = concat (List.map layers
                (all_axes (mkFigure sz sh (grid_of 4 3 cell 10) false false))).
Proof. reflexivity. Qed.

Lemma layers_of_first_cells (cell : nat -> Axes) m n :
  concat (List.map layers
            (List.map (fun k => if (k <? m)%nat then cell k else new_axes)
                      (seq 0 n)))
    = flat_map (fun k => layers (cell k)) (seq 0 (Nat.min m n)).
Proof.
  induction n as [|n IH].
  - rewrite Nat.min_0_r. reflexivity.
  - rewrite seq_S, !List.map_app, concat_app, IH.
    cbn [List.map concat Nat.add].
    destruct (Nat.ltb_spec n m) as [Hlt|Hge].
    + rewrite (Nat.min_r m n), (Nat.min_r m (S n)) by lia.
      rewrite seq_S, flat_map_app. reflexivity.
    + rewrite (Nat.min_l m n), (Nat.min_l m (S n)) by lia.
      cbn [layers new_axes]. rewrite !app_nil_r. reflexivity.
Qed.

Lemma layers_of_map_cells lib gdf cmap columns m :
  m <= length columns ->
  flat_map (fun k => layers (map_cell lib gdf cmap columns k)) (seq 0 m)
    = List.map (map_layer gdf cmap)
        (List.filter (fun c => was_drawn (lib (map_layer gdf cmap c)))
                     (firstn m columns)).
Proof.
  induction m as [|m IH]; intros Hm; [reflexivity|].
  destruct (lookup_lt_is_Some_2 columns m) as [c Hc]; [lia|].
  rewrite seq_S, flat_map_app, IH by lia. cbn [flat_map Nat.add].
  change (firstn (S m) columns) with (take (S m) columns).
  rewrite (take_S_r _ _ _ Hc). change (take m columns) with (firstn m columns).
  rewrite List.filter_app, List.map_app. f_equal.
  unfold map_cell. rewrite Hc. unfold map_drawn. cbn [layers List.filter].
  destruct (was_drawn (lib (map_layer gdf cmap c))); reflexivity.
Qed.

Lemma filter_all {A} (f : A -> bool) l :
  Forall (fun a => f a = true) l -> List.filter f l = l.
Proof.
  induction 1 as [|a l Ha _ IH]; [reflexivity|].
  cbn [List.filter]. rewrite Ha, IH. reflexivity.
Qed.

(** X5: the columns that [choropleth] has drawn, read in panel order, are
    those of the first [k] columns of [gdf.columns[:-3]] that the plotting
    library drew, where [k <= 10] is the loop counter when the call ends
    (by returning, or by raising in [columns[k]] or in the plot call of
    column [k]).  The last three columns and the columns after the tenth
    are never drawn.  When the library draws all of the first ten, these
    are exactly the columns drawn. *)
Theorem choropleth_plotted_columns lib gdf size cmap :
  var_k (snd (run_choropleth lib gdf size cmap)) <= 10 /\
  plotted_columns (fig (snd (run_choropleth lib gdf size cmap)))
    = List.filter (fun c => was_drawn (lib (map_layer gdf cmap c)))
        (firstn (var_k (snd (run_choropleth lib gdf size cmap)))
                (drop_last 3 (gdf_columns gdf))) /\
  (Forall (fun c => lib (map_layer gdf cmap c) = Drawn)
          (firstn 10 (drop_last 3 (gdf_columns gdf))) ->
   plotted_columns (fig (snd (run_choropleth lib gdf size cmap)))
     = firstn 10 (drop_last 3 (gdf_columns gdf))).
Proof.
  rewrite choropleth_run. unfold choropleth_result. cbv zeta.
  set (columns := drop_last 3 (gdf_columns gdf)).
  assert (Hshape : forall m sz sh t s,
            m <= 10 -> m <= length columns ->
            plotted_columns
              (mkFigure sz sh (grid_of 4 3 (map_cell lib gdf cmap columns) m) t s)
              = List.filter (fun c => was_drawn (lib (map_layer gdf cmap c)))
                            (firstn m columns)).
  { intros m sz sh t s Hm Hlen. unfold plotted_columns.
    rewrite all_axes_grid_4_3, layers_of_first_cells.
    rewrite (Nat.min_l m 12) by lia.
    rewrite layers_of_map_cells by exact Hlen.
    rewrite List.map_map. cbn [map_layer m_column]. apply map_id. }
  assert (Hlast : forall cell sz sh t s,
            plotted_columns
              (mkFigure sz sh
                        (remove_at 3 2 (remove_at 3 1 (grid_of 4 3 cell 10))) t s)
              = plotted_columns
                  (mkFigure sz sh (grid_of 4 3 cell 10) false false)).
  { intros. unfold plotted_columns. rewrite layers_after_delaxes. reflexivity. }
  assert (Hall : Forall (fun c => lib (map_layer gdf cmap c) = Drawn)
                        (firstn 10 columns) ->
                 first_failure (plot_tries lib gdf cmap) = None /\
                 List.filter (fun c => was_drawn (lib (map_layer gdf cmap c)))
                             (firstn 10 columns) = firstn 10 columns).
  { intros Hlib. split.
    - apply plot_tries_accepted. fold columns.
      eapply Forall_impl; [exact Hlib|]. cbv beta. intros c ->. reflexivity.
    - apply filter_all. eapply Forall_impl; [exact Hlib|].
      cbv beta. intros c ->. reflexivity. }
  destruct (first_failure (plot_tries lib gdf cmap)) as [[k e]|] eqn:Hfirst.
  - pose proof (first_failure_lt _ _ _ Hfirst) as Hk.
    unfold plot_tries in Hk. fold columns in Hk.
    rewrite List.length_map, length_firstn in Hk.
    cbn [snd var_k fig]. split; [lia|]. split; [apply Hshape; lia|].
    intros Hlib. destruct (Hall Hlib) as [Hno _]. discriminate Hno.
  - destruct (Nat.ltb_spec (length columns) 10) as [Hlt|Hge];
      cbn [snd var_k fig].
    + split; [lia|]. split; [apply Hshape; lia|].
      intros Hlib. destruct (Hall Hlib) as [_ Hf].
      rewrite Hshape by lia. rewrite !firstn_all2 in * by lia. exact Hf.
    + split; [lia|]. rewrite Hlast. split; [apply Hshape; lia|].
      intros Hlib. destruct (Hall Hlib) as [_ Hf].
      rewrite Hshape by lia. exact Hf.
Qed.

Lemma choropleth_plotted_columns_witness :
  Forall (fun c => sample_library (map_layer ward_map "viridis" c) = Drawn)
         (firstn 10 (drop_last 3 (gdf_columns ward_map))) /\
  plotted_columns
      (fig (snd (run_choropleth sample_library ward_map (20, 20)%Z "viridis")))
    = firstn 10 (drop_last 3 (gdf_columns ward_map)).
Proof.
  assert (Hlib : Forall (fun c => sample_library (map_layer ward_map "viridis" c)
                                  = Drawn)
                        (firstn 10 (drop_last 3 (gdf_columns ward_map)))).
  { repeat constructor. }
  split; [exact Hlib|].
  exact (proj2 (proj2 (choropleth_plotted_columns sample_library ward_map
                         (20, 20)%Z "viridis")) Hlib).
Defined.

(** X6: [choropleth] never shows the figure, and lays it out only when it
    returns; [scatterplot] shows the figure exactly when it returns. *)
Theorem figure_is_shown_only_by_scatterplot :
  (forall lib gdf size cmap,
     shown (fig (snd (run_choropleth lib gdf size cmap))) = false /\
     (tight (fig (snd (run_choropleth lib gdf size cmap))) = true <->
      fst (run_choropleth lib gdf size cmap) = Ok tt)) /\
  (forall df size logx logy,
     shown (fig (snd (run_scatterplot df size logx logy))) = true <->
     fst (run_scatterplot df size logx logy) = Ok tt).
Proof.
  split.
  - intros lib gdf size cmap. rewrite choropleth_run. unfold choropleth_result.
    cbv zeta.
    destruct (first_failure (plot_tries lib gdf cmap)) as [[k e]|];
      [|destruct (length (drop_last 3 (gdf_columns gdf)) <? 10)%nat];
      cbn [fst snd fig shown tight]; repeat split; intros H0;
      try reflexivity; discriminate H0.
  - intros df size logx logy. rewrite scatterplot_run.
    unfold scatter_result, scatter_result_of.
    destruct (df_loc df "total_population") as [x|e];
      [cbv zeta; destruct (first_false (scatter_tries df x)) as [k|];
         [|destruct (length (df_rows df) <? 10)%nat]|];
      cbn [fst snd fig shown]; split; intros H0;
      try reflexivity; discriminate H0.
Qed.

(** ** Labels and scales of the drawn panels *)

(** X7: every panel on which [scatterplot] has drawn ends with the x label
    "Total population per borough" (the label 'total_population' set first
    is overwritten), the y label "Number of amenity in a borough", a log x
    scale exactly when [logx] is set and a log y scale exactly when [logy]
    is set, and its axis left on. *)
Theorem scatterplot_labels_and_scales df size logx logy i j a :
  panel (fig (snd (run_scatterplot df size logx logy))) i j = Some a ->
  scatters a <> [] ->
  xlabel a = "Total population per borough" /\
  ylabel a = "Number of amenity in a borough" /\
  xscale a = (if logx then "log" else "linear") /\
  yscale a = (if logy then "log" else "linear") /\
  axis_on a = true.
Proof.
  rewrite scatterplot_run. unfold scatter_result, scatter_result_of.
  intros Hp Hdrawn.
  assert (Hcell : forall (b : bool) (f : Axes -> Axes) x,
            (forall c, f c = c \/ f c = removed c) ->
            Some (f (if b then scatter_cell df logx logy x (i * 4 + j)
                     else new_axes)) = Some a ->
            xlabel a = "Total population per borough" /\
            ylabel a = "Number of amenity in a borough" /\
            xscale a = (if logx then "log" else "linear") /\
            yscale a = (if logy then "log" else "linear") /\
            axis_on a = true).
  { intros b f x Hf E. injection E as <-.
    destruct (Hf (if b then scatter_cell df logx logy x (i * 4 + j)
                  else new_axes)) as [E|E];
      rewrite E in *; clear E Hf;
      unfold scatter_cell in *;
      (destruct b; [|exfalso; apply Hdrawn; reflexivity]);
      (destruct (df_rows df !! (i * 4 + j)%nat) as [[n v]|];
         [|exfalso; apply Hdrawn; reflexivity]);
      repeat split. }
  destruct (df_loc df "total_population") as [x|e].
  - cbv zeta in Hp.
    destruct (first_false (scatter_tries df x)) as [k|];
      [|destruct (length (df_rows df) <? 10)%nat];
      cbn [snd fig] in Hp;
      rewrite ?panel_remove_at, !panel_grid_of in Hp;
      (destruct ((i <? 3)%nat && (j <? 4)%nat); [|discriminate Hp]);
      cbn [option_map] in Hp.
    + refine (Hcell _ (fun c => c) x _ Hp). intros c. left. reflexivity.
    + refine (Hcell _ (fun c => c) x _ Hp). intros c. left. reflexivity.
    + revert Hp.
      set (r1 := fun a0 : Axes =>
                   if (i =? 2)%nat && (j =? 2)%nat then removed a0 else a0).
      set (r2 := fun a0 : Axes =>
                   if (i =? 2)%nat && (j =? 3)%nat then removed a0 else a0).
      intros Hp. refine (Hcell _ (fun c => r2 (r1 c)) x _ Hp).
      intros c. unfold r1, r2.
      destruct ((i =? 2)%nat && (j =? 2)%nat), ((i =? 2)%nat && (j =? 3)%nat);
        [right|right|right|left]; reflexivity.
  - cbn [snd fig] in Hp. rewrite panel_grid_of in Hp.
    destruct ((i <? 3)%nat && (j <? 4)%nat); [|discriminate Hp].
    injection Hp as <-. exfalso. apply Hdrawn.
    destruct (i * 4 + j <? 0)%nat; reflexivity.
Qed.

Lemma scatterplot_labels_and_scales_witness :
  exists a,
    panel (fig (snd (run_scatterplot amenities (16, 12)%Z true false))) 1 1
      = Some a /\
    scatters a <> [] /\
    xlabel a = "Total population per borough" /\
    ylabel a = "Number of amenity in a borough" /\
    xscale a = "log" /\
    yscale a = "linear" /\
    axis_on a = true.
Proof.
  assert (Hp : exists a,
             panel (fig (snd (run_scatterplot amenities (16, 12)%Z true false)))
                   1 1 = Some a /\ scatters a <> []).
  { vm_compute. eexists. split; [reflexivity | discriminate]. }
  destruct Hp as (a & Hp & Hd). exists a. split; [exact Hp|]. split; [exact Hd|].
  exact (scatterplot_labels_and_scales amenities (16, 12)%Z true false 1 1 a
           Hp Hd).
Defined.

(** ** Deleted panels *)

(** X8: [scatterplot] never deletes a panel it has drawn on.  A panel that
    is no longer in the figure belongs to a call that returned, sits at
    position (2, 2) or (2, 3) of the grid, and holds no data. *)
Theorem scatterplot_deletes_only_empty_panels df size logx logy i j a :
  panel (fig (snd (run_scatterplot df size logx logy))) i j = Some a ->
  in_figure a = false ->
  fst (run_scatterplot df size logx logy) = Ok tt /\
  i = 2 /\ (j = 2 \/ j = 3) /\
  scatters a = [] /\ layers a = [].
Proof.
  rewrite scatterplot_run. unfold scatter_result, scatter_result_of.
  intros Hp Hdel.
  assert (Hlive : forall (b : bool) x k,
            in_figure (if b then scatter_cell df logx logy x k else new_axes)
              = true).
  { intros b x k. unfold scatter_cell.
    destruct b; [destruct (df_rows df !! k) as [[n v]|]|]; reflexivity. }
  destruct (df_loc df "total_population") as [x|e].
  - cbv zeta in Hp |- *.
    destruct (first_false (scatter_tries df x)) as [k|];
      [|destruct (length (df_rows df) <? 10)%nat];
      cbn [snd fig fst] in Hp |- *;
      rewrite ?panel_remove_at, !panel_grid_of in Hp;
      (destruct ((i <? 3)%nat && (j <? 4)%nat); [|discriminate Hp]);
      cbn [option_map] in Hp; injection Hp as <-.
    + rewrite Hlive in Hdel. discriminate Hdel.
    + rewrite Hlive in Hdel. discriminate Hdel.
    + destruct (Nat.eqb_spec i 2) as [->|Hi]; cbn [andb] in Hdel |- *;
        [|rewrite Hlive in Hdel; discriminate Hdel].
      destruct (Nat.eqb_spec j 2) as [->|Hj2]; [repeat split; auto|].
      destruct (Nat.eqb_spec j 3) as [->|Hj3]; [repeat split; auto|].
      rewrite Hlive in Hdel. discriminate Hdel.
  - cbn [snd fig] in Hp. rewrite panel_grid_of in Hp.
    destruct ((i <? 3)%nat && (j <? 4)%nat); [|discriminate Hp].
    injection Hp as <-.
    destruct (i * 4 + j <? 0)%nat; discriminate Hdel.
Qed.

Lemma scatterplot_deletes_only_empty_panels_witness :
  exists a,
    panel (fig (snd (run_scatterplot amenities (16, 12)%Z false false))) 2 3
      = Some a /\
    in_figure a = false /\
    fst (run_scatterplot amenities (16, 12)%Z false false) = Ok tt /\
    2 = 2 /\ (3 = 2 \/ 3 = 3) /\
    scatters a = [] /\ layers a = [].
Proof.
  assert (Hp : exists a,
             panel (fig (snd (run_scatterplot amenities (16, 12)%Z false false)))
                   2 3 = Some a /\ in_figure a = false).
  { vm_compute. eexists. split; reflexivity. }
  destruct Hp as (a & Hp & Hd). exists a. split; [exact Hp|]. split; [exact Hd|].
  exact (scatterplot_deletes_only_empty_panels amenities (16, 12)%Z false false
           2 3 a Hp Hd).
Defined.

(** X9: [choropleth] never deletes a panel it has drawn on.  A panel that
    is no longer in the figure belongs to a call that returned, sits at
    position (3, 1) or (3, 2) of the grid, and holds no map. *)
Theorem choropleth_deletes_only_empty_panels lib gdf size cmap i j a :
  panel (fig (snd (run_choropleth lib gdf size cmap))) i j = Some a ->
  in_figure a = false ->
  fst (run_choropleth lib gdf size cmap) = Ok tt /\
  i = 3 /\ (j = 1 \/ j = 2) /\
  scatters a = [] /\ layers a = [].
Proof.
  rewrite choropleth_run. unfold choropleth_result. cbv zeta.
  intros Hp Hdel.
  assert (Hlive : forall (b : bool) k,
            in_figure (if b
                       then map_cell lib gdf cmap
                                     (drop_last 3 (gdf_columns gdf)) k
                       else new_axes) = true).
  { intros b k. unfold map_cell.
    destruct b; [destruct (drop_last 3 (gdf_columns gdf) !! k)|]; reflexivity. }
  destruct (first_failure (plot_tries lib gdf cmap)) as [[k e]|];
    [|destruct (length (drop_last 3 (gdf_columns gdf)) <? 10)%nat];
    cbn [snd fig fst] in Hp |- *;
    rewrite ?panel_remove_at, !panel_grid_of in Hp;
    (destruct ((i <? 4)%nat && (j <? 3)%nat); [|discriminate Hp]);
    cbn [option_map] in Hp; injection Hp as <-.
  - rewrite Hlive in Hdel. discriminate Hdel.
  - rewrite Hlive in Hdel. discriminate Hdel.
  - destruct (Nat.eqb_spec i 3) as [->|Hi]; cbn [andb] in Hdel |- *;
      [|rewrite Hlive in Hdel; discriminate Hdel].
    destruct (Nat.eqb_spec j 1) as [Ej|Hj1]; [subst j; repeat split; auto|].
    destruct (Nat.eqb_spec j 2) as [Ej|Hj2]; [subst j; repeat split; auto|].
    rewrite Hlive in Hdel. discriminate Hdel.
Qed.

Lemma choropleth_deletes_only_empty_panels_witness :
  exists a,
    panel (fig (snd (run_choropleth sample_library ward_map (20, 20)%Z
                                    "viridis"))) 3 1
      = Some a /\
    in_figure a = false /\
    fst (run_choropleth sample_library ward_map (20, 20)%Z "viridis") = Ok tt /\
    3 = 3 /\ (1 = 1 \/ 1 = 2) /\
    scatters a = [] /\ layers a = [].
Proof.
  assert (Hp : exists a,
             panel (fig (snd (run_choropleth sample_library ward_map (20, 20)%Z
                                             "viridis"))) 3 1
               = Some a /\ in_figure a = false).
  { vm_compute. eexists. split; reflexivity. }
  destruct Hp as (a & Hp & Hd). exists a. split; [exact Hp|]. split; [exact Hd|].
  exact (choropleth_deletes_only_empty_panels sample_library ward_map
           (20, 20)%Z "viridis" 3 1 a Hp Hd).
Defined.

(** ** The shape of a title *)

Lemma space_for_underscore_neq c : space_for_underscore c <> "_"%char.
Proof.
  unfold space_for_underscore.
  destruct (Ascii.eqb_spec c "_") as [->|Hne]; [discriminate|exact Hne].
Qed.

Lemma lowered_is_not_upper c :
  PyStr.is_upper (space_for_underscore (PyStr.lower c)) = false.
Proof.
  destruct c as [[] [] [] [] [] [] [] []]; reflexivity.
Qed.

(** X10: for an ASCII name, the title built by
    [name.capitalize().replace("_", " ")] contains no underscore, and no
    upper-case letter after its first character. *)
Theorem title_has_no_underscore_nor_inner_capital name p c :
  PyStr.is_ascii name = true ->
  String.get p (PyStr.replace "_" " " (PyStr.capitalize name)) = Some c ->
  c <> "_"%char /\ (0 < p -> PyStr.is_upper c = false).
Proof.
  intros _. rewrite replace_underscore, get_map.
  destruct (String.get p (PyStr.capitalize name)) as [c'|] eqn:Hget;
    [|discriminate].
  cbn [option_map]. intros E. injection E as <-.
  split; [apply space_for_underscore_neq|].
  intros Hp. destruct name as [|c0 r]; [discriminate Hget|].
  destruct p as [|p]; [lia|]. cbn [PyStr.capitalize String.get] in Hget.
  rewrite get_map in Hget.
  destruct (String.get p r) as [c''|]; [|discriminate Hget].
  injection Hget as <-. apply lowered_is_not_upper.
Qed.

Lemma title_has_no_underscore_nor_inner_capital_witness :
  PyStr.is_ascii "ATM_cash_Point" = true /\
  String.get 4 (PyStr.replace "_" " " (PyStr.capitalize "ATM_cash_Point"))
    = Some "c"%char /\
  "c"%char <> "_"%char /\ (0 < 4 -> PyStr.is_upper "c" = false).
Proof.
  split; [reflexivity|]. split; [reflexivity|].
  apply (title_has_no_underscore_nor_inner_capital "ATM_cash_Point" 4 "c");
    reflexivity.
Defined.

(** ** What [choropleth] leaves behind when it raises *)

(** X11: on a table with fewer than 13 columns, all of whose columns
    before the last three the plotting library draws, [choropleth] raises
    the out-of-range error after having drawn one map for each of those
    columns; no panel has been deleted and [tight_layout] was not
    reached. *)
Theorem choropleth_partial_figure lib gdf size cmap :
  length (gdf_data gdf) < 13 ->
  Forall (fun c => lib (map_layer gdf cmap c) = Drawn)
         (drop_last 3 (gdf_columns gdf)) ->
  exists w,
    run_choropleth lib gdf size cmap = (Raise IndexError, w) /\
    count_axes is_populated (fig w) = length (gdf_data gdf) - 3 /\
    count_axes is_deleted (fig w) = 0 /\
    tight (fig w) = false.
Proof.
  intros Hlen Hlib. rewrite choropleth_run. destruct gdf as [crs data].
  unfold choropleth_result.
  do 13 (destruct data as [|[? ?] data];
         [cbn [gdf_columns gdf_data List.map fst drop_last length Nat.sub firstn]
            in Hlib;
          unfold map_layer in Hlib;
          repeat match goal with
                 | H : Forall _ (_ :: _) |- _ => inversion H; clear H; subst
                 end;
          norm_world;
          repeat match goal with
                 | H : lib _ = Drawn |- _ => rewrite H; clear H
                 end;
          eexists; split; [reflexivity|]; repeat split|]).
  simpl in Hlen. lia.
Qed.

Lemma choropleth_partial_figure_witness :
  length (gdf_data small_ward_map) < 13 /\
  Forall (fun c => sample_library (map_layer small_ward_map "viridis" c) = Drawn)
         (drop_last 3 (gdf_columns small_ward_map)) /\
  exists w,
    run_choropleth sample_library small_ward_map (20, 20)%Z "viridis"
      = (Raise IndexError, w) /\
    count_axes is_populated (fig w) = length (gdf_data small_ward_map) - 3 /\
    count_axes is_deleted (fig w) = 0 /\
    tight (fig w) = false.
Proof.
  assert (Hlen : length (gdf_data small_ward_map) < 13) by (simpl; lia).
  assert (Hlib : Forall (fun c => sample_library
                                    (map_layer small_ward_map "viridis" c)
                                  = Drawn)
                        (drop_last 3 (gdf_columns small_ward_map))).
  { repeat constructor. }
  split; [exact Hlen|]. split; [exact Hlib|].
  exact (choropleth_partial_figure sample_library small_ward_map (20, 20)%Z
           "viridis" Hlen Hlib).
Defined.

(** ** Calls that a library refuses *)

Lemma first_failure_at os k o e :
  os !! k = Some o ->
  plot_error o = Some e ->
  Forall (fun o' => plot_error o' = None) (firstn k os) ->
  first_failure os = Some (k, e).
Proof.
  revert k. induction os as [|o' os IH]; intros [|k] Hk He Hpre;
    try discriminate Hk; cbn [first_failure].
  - injection Hk as ->. rewrite He. reflexivity.
  - cbn [firstn] in Hpre. inversion Hpre as [|? ? Ho' Hrest]; subst.
    rewrite Ho'. rewrite (IH k Hk He Hrest). reflexivity.
Qed.

Lemma no_deleted_panel_4_3 (cell : nat -> Axes) m sz sh t s :
  (forall k, in_figure (cell k) = true) ->
  count_axes is_deleted (mkFigure sz sh (grid_of 4 3 cell m) t s) = 0.
Proof.
  intros Hlive. unfold count_axes. rewrite all_axes_grid_4_3.
  induction (seq 0 12) as [|k ks IH]; [reflexivity|].
  cbn [List.map List.filter]. unfold is_deleted at 1.
  destruct (k <? m)%nat; [rewrite Hlive|]; exact IH.
Qed.

(** X12: when the plotting library refuses the column at position [k] of
    [gdf.columns[:-3]] ([k < 10]) and none before it, [choropleth] raises
    the library's exception from that plot call: the loop counter is still
    [k], the panel of the refused call is untouched (no map, no title, axis
    on), no panel has been deleted and [tight_layout] was not reached. *)
Theorem choropleth_stops_at_first_refusal lib gdf size cmap k c e :
  k < 10 ->
  drop_last 3 (gdf_columns gdf) !! k = Some c ->
  lib (map_layer gdf cmap c) = Fails e ->
  Forall (fun c' => plot_error (lib (map_layer gdf cmap c')) = None)
         (firstn k (drop_last 3 (gdf_columns gdf))) ->
  exists w,
    run_choropleth lib gdf size cmap = (Raise e, w) /\
    var_k w = k /\
    panel (fig w) (k / 3) (k mod 3) = Some new_axes /\
    count_axes is_deleted (fig w) = 0 /\
    tight (fig w) = false.
Proof.
  intros Hk Hc He Hpre. rewrite choropleth_run. unfold choropleth_result.
  cbv zeta.
  assert (Hfirst : first_failure (plot_tries lib gdf cmap) = Some (k, e)).
  { unfold plot_tries.
    apply (first_failure_at _ k (lib (map_layer gdf cmap c)) e).
    - rewrite lookup_map.
      change (firstn 10 (drop_last 3 (gdf_columns gdf)))
        with (take 10 (drop_last 3 (gdf_columns gdf))).
      rewrite lookup_take_lt by exact Hk. rewrite Hc. reflexivity.
    - rewrite He. reflexivity.
    - rewrite firstn_map, firstn_firstn, Nat.min_l by lia.
      apply Forall_map. exact Hpre. }
  rewrite Hfirst. eexists. split; [reflexivity|]. cbn [var_k fig tight].
  split; [reflexivity|]. split; [|split; [|reflexivity]].
  - rewrite panel_grid_of.
    assert (Hi : k / 3 < 4) by (apply Nat.Div0.div_lt_upper_bound; lia).
    assert (Hj : k mod 3 < 3) by (apply Nat.mod_upper_bound; lia).
    destruct (Nat.ltb_spec (k / 3) 4); [|lia].
    destruct (Nat.ltb_spec (k mod 3) 3); [|lia].
    cbn [andb].
    assert (Hpos : k / 3 * 3 + k mod 3 = k).
    { rewrite (Nat.div_mod_eq k 3) at 3. lia. }
    rewrite Hpos. rewrite Nat.ltb_irrefl. reflexivity.
  - apply no_deleted_panel_4_3. intros k'. unfold map_cell.
    destruct (drop_last 3 (gdf_columns gdf) !! k'); reflexivity.
Qed.

Lemma choropleth_stops_at_first_refusal_witness :
  exists w,
    run_choropleth sample_library borough_map (20, 20)%Z "viridis"
      = (Raise ValueError, w) /\
    var_k w = 0 /\
    panel (fig w) (0 / 3) (0 mod 3) = Some new_axes /\
    count_axes is_deleted (fig w) = 0 /\
    tight (fig w) = false.
Proof.
  apply (choropleth_stops_at_first_refusal sample_library borough_map
           (20, 20)%Z "viridis" 0 "bank" ValueError).
  - lia.
  - reflexivity.
  - reflexivity.
  - constructor.
Defined.

Lemma length_concat_uniform {A} (l : list (list A)) n :
  Forall (fun v => length v = n) l -> length (concat l) = length l * n.
Proof.
  induction 1 as [|v l Hv _ IH]; [reflexivity|].
  cbn [concat length]. rewrite length_app, Hv, IH. lia.
Qed.

(** X13: on a table with at least one column in which the label
    "total_population" is carried by two rows or more, [df.loc] gives a
    sub-frame, and [scatterplot] raises [ValueError] in the first
    [scatter] call (x and y differ in size): the loop counter is still 0
    and nothing has been drawn. *)
Theorem scatterplot_repeated_label df size logx logy :
  2 <= count_label "total_population" df ->
  df_columns df <> [] ->
  Forall (fun r => length (snd r) = length (df_columns df)) (df_rows df) ->
  exists w,
    run_scatterplot df size logx logy = (Raise ValueError, w) /\
    var_k w = 0 /\
    count_axes is_populated (fig w) = 0.
Proof.
  intros Htwice Hcols Hrect. rewrite scatterplot_run.
  unfold scatter_result, count_label, df_loc in *.
  set (rs := List.filter (fun r => String.eqb (fst r) "total_population")
                         (df_rows df)) in *.
  assert (Hrs : Forall (fun r => length (snd r) = length (df_columns df)) rs).
  { apply List.Forall_forall. intros r Hr. apply filter_In in Hr as [Hr _].
    rewrite List.Forall_forall in Hrect. exact (Hrect r Hr). }
  assert (Hsize : length (concat (List.map snd rs))
                  = length rs * length (df_columns df)).
  { rewrite (length_concat_uniform _ (length (df_columns df))).
    - rewrite List.length_map. reflexivity.
    - apply Forall_map. exact Hrs. }
  assert (Hn : 0 < length (df_columns df)).
  { destruct (df_columns df); [contradiction|simpl; lia]. }
  destruct (df_rows df) as [|[n0 v0] rows] eqn:Hrows.
  { subst rs. simpl in Htwice. lia. }
  assert (Hv0 : length v0 = length (df_columns df)).
  { inversion Hrect; subst. assumption. }
  assert (Hfirst : first_false (scatter_tries df (LocFrame rs)) = Some 0).
  { unfold scatter_tries. rewrite Hrows.
    cbn [firstn List.map first_false fst snd scatter_sizes_match s_values].
    rewrite Hsize, Hv0.
    destruct (Nat.eqb_spec (length rs * length (df_columns df))
                           (length (df_columns df))) as [E|_]; [nia|].
    reflexivity. }
  destruct rs as [|[n1 v1] [|r2 rs']] eqn:Ers; cbn [length] in Htwice; try lia.
  unfold scatter_result_of. rewrite Hfirst.
  eexists. split; [reflexivity|]. split; reflexivity.
Qed.

Lemma scatterplot_repeated_label_witness :
  2 <= count_label "total_population" population_twice /\
  exists w,
    run_scatterplot population_twice (16, 12)%Z false false
      = (Raise ValueError, w) /\
    var_k w = 0 /\
    count_axes is_populated (fig w) = 0.
Proof.
  assert (Htwice : 2 <= count_label "total_population" population_twice).
  { vm_compute. lia. }
  split; [exact Htwice|].
  apply (scatterplot_repeated_label population_twice (16, 12)%Z false false
           Htwice).
  - discriminate.
  - repeat constructor.
Defined.

